(** * smaract: command dispatch, error draining and axis enumeration

    A shallow embedding of [smaract/controller.py] and [smaract/axis.py].

    - Python byte strings are [string]; Python integers are [Z].
    - An exception is a value of [exn]; a call either returns or raises
      ([Res]).
    - The communication object [self._comm] is the external collaborator:
      it is a parameter of the development (a state type and a
      request/reply function), taken as reliable and blocking.
    - The [while True] loop of [send_cmd] may run forever (a controller
      that keeps reporting a nonzero error count and code-0 records), so
      the loop carries fuel; [None] is "no verdict yet". *)

From Stdlib Require Import String Ascii List ZArith Lia Bool Arith.
From Stdlib Require Import DecimalString DecimalZ DecimalN DecimalPos.
Import ListNotations.

#[local] Open Scope string_scope.
#[local] Open Scope list_scope.

(* ===================================================================== *)
(** ** Python built-ins used by the two source files *)
(* ===================================================================== *)

(** Characters that cannot be written inside a string literal here. *)
Definition dquote : ascii := ascii_of_nat 34.
Definition cr : ascii := ascii_of_nat 13.
Definition lf : ascii := ascii_of_nat 10.

(** [str.isspace] on one byte: space, \t, \n, \v, \f, \r. *)
Definition is_space (c : ascii) : bool :=
  let n := nat_of_ascii c in
  ((n =? 32) || ((9 <=? n) && (n <=? 13)))%nat.

Definition is_digit (c : ascii) : bool :=
  let n := nat_of_ascii c in
  ((48 <=? n) && (n <=? 57))%nat.

(** Every character of [s] satisfies [p]. *)
Fixpoint all_chars (p : ascii -> bool) (s : string) : bool :=
  match s with
  | EmptyString => true
  | String c s' => p c && all_chars p s'
  end.

Fixpoint lstrip (s : string) : string :=
  match s with
  | EmptyString => EmptyString
  | String c s' => if is_space c then lstrip s' else s
  end.

Fixpoint rstrip (s : string) : string :=
  match s with
  | EmptyString => EmptyString
  | String c s' =>
      match rstrip s' with
      | EmptyString => if is_space c then EmptyString else String c EmptyString
      | r => String c r
      end
  end.

(** [s.strip()] *)
Definition py_strip (s : string) : string := rstrip (lstrip s).

(** [int(s)] for a byte string, base 10: surrounding whitespace is
    dropped, one optional sign, then at least one decimal digit and
    nothing else.  [None] stands for the [ValueError] Python raises.
    The statements below use [py_int] on plain decimal numerals, or
    take its result as given. *)
Definition py_int (s : string) : option Z :=
  match py_strip s with
  | String "+" t => option_map Z.of_uint (NilZero.uint_of_string t)
  | String "-" t =>
      option_map (fun d => Z.opp (Z.of_uint d)) (NilZero.uint_of_string t)
  | t => option_map Z.of_uint (NilZero.uint_of_string t)
  end.

(** ['%d' % n], [str(n)] and ['{:d}'.format(n)] for an integer. *)
Definition fmt_d (n : Z) : string := NilZero.string_of_int (Z.to_int n).

(** [s.lower()] on one byte and on a byte string. *)
Definition lower_ascii (c : ascii) : ascii :=
  let n := nat_of_ascii c in
  if ((65 <=? n) && (n <=? 90))%nat then ascii_of_nat (n + 32) else c.

Fixpoint py_lower (s : string) : string :=
  match s with
  | EmptyString => EmptyString
  | String c s' => String (lower_ascii c) (py_lower s')
  end.

(** [s.rsplit(sep)] for a one-character separator and no [maxsplit]
    (then it yields the same list as [s.split(sep)]); the result is
    never empty. *)
Fixpoint py_rsplit (sep : ascii) (s : string) : list string :=
  match s with
  | EmptyString => [EmptyString]
  | String c s' =>
      if Ascii.eqb c sep then EmptyString :: py_rsplit sep s'
      else match py_rsplit sep s' with
           | h :: t => String c h :: t
           | [] => [String c EmptyString]
           end
  end.

(** [s.replace(c, '')] for a one-character [c]. *)
Fixpoint py_replace_empty (old : ascii) (s : string) : string :=
  match s with
  | EmptyString => EmptyString
  | String c s' =>
      if Ascii.eqb c old then py_replace_empty old s'
      else String c (py_replace_empty old s')
  end.

(** [range(n)]: empty when [n <= 0]. *)
Definition py_range (n : Z) : list Z := map Z.of_nat (seq 0 (Z.to_nat n)).

(** [x in l] for a list of strings. *)
Definition py_in (x : string) (l : list string) : bool :=
  existsb (String.eqb x) l.

(* ===================================================================== *)
(** ** Exceptions and results *)
(* ===================================================================== *)

Inductive exn : Type :=
| RuntimeError (msg : string)
| ValueError (msg : string)
| ValueError_int (literal : string)   (* [int(literal)] failed *)
| IndexError (msg : string).

Inductive Res (A : Type) : Type :=
| Return (a : A)
| Raise (e : exn).
Arguments Return {A} a.
Arguments Raise {A} e.

(** [l[i]] on a list: [IndexError] out of range. *)
Definition py_index {A : Type} (l : list A) (i : nat) : Res A :=
  match nth_error l i with
  | Some a => Return a
  | None => Raise (IndexError "list index out of range")
  end.

(* ===================================================================== *)
(** ** [str.format] with the axis number as its single argument *)
(* ===================================================================== *)

(** The fragment of [str.format] that is modelled: literal text, the
    escapes [{{] and [}}], and replacement fields that render the one
    positional argument in decimal.  A field outside the fragment (a
    name, an index other than 0, a conversion, another format spec) is
    not given a meaning: the formatter answers [None] there.  The texts
    carried by the exceptions of [format] vary with the Python version;
    no statement below depends on them. *)

Inductive numbering : Type := Automatic | Manual.

Definition classify_field (f : string) : option numbering :=
  if py_in f [""; ":"; ":d"] then Some Automatic
  else if py_in f ["0"; "0:"; "0:d"] then Some Manual
  else None.

Inductive fmt_mode : Type :=
| Lit                      (* in literal text *)
| Open                     (* just read an opening brace *)
| Field (f : string)       (* inside a replacement field, text so far *)
| Close.                   (* just read a closing brace in literal text *)

Definition res_map {A B : Type} (f : A -> B) (r : option (Res A))
  : option (Res B) :=
  match r with
  | Some (Return a) => Some (Return (f a))
  | Some (Raise e) => Some (Raise e)
  | None => None
  end.

(** [used]: which numbering the fields read so far have used
    ([Some Automatic] also means that the one argument is consumed). *)
Definition emit_field (f : string) (used : option numbering) (n : Z)
    (k : option numbering -> option (Res string)) : option (Res string) :=
  match classify_field f, used with
  | None, _ => None
  | Some Automatic, None => res_map (append (fmt_d n)) (k (Some Automatic))
  | Some Automatic, Some Automatic =>
      Some (Raise (IndexError "tuple index out of range"))
  | Some Automatic, Some Manual =>
      Some (Raise (ValueError
        "cannot switch from manual field specification to automatic field numbering"))
  | Some Manual, Some Automatic =>
      Some (Raise (ValueError
        "cannot switch from automatic field numbering to manual field specification"))
  | Some Manual, _ => res_map (append (fmt_d n)) (k (Some Manual))
  end.

Fixpoint format_from (mode : fmt_mode) (used : option numbering) (n : Z)
    (s : string) : option (Res string) :=
  match s with
  | EmptyString =>
      match mode with
      | Lit => Some (Return EmptyString)
      | Open => Some (Raise (ValueError "Single '{' encountered in format string"))
      | Field _ => Some (Raise (ValueError "expected '}' before end of string"))
      | Close => Some (Raise (ValueError "Single '}' encountered in format string"))
      end
  | String c s' =>
      match mode with
      | Lit =>
          if Ascii.eqb c "{" then format_from Open used n s'
          else if Ascii.eqb c "}" then format_from Close used n s'
          else res_map (String c) (format_from Lit used n s')
      | Open =>
          if Ascii.eqb c "{" then res_map (String "{") (format_from Lit used n s')
          else if Ascii.eqb c "}"
               then emit_field "" used n (fun u => format_from Lit u n s')
               else format_from (Field (String c EmptyString)) used n s'
      | Field f =>
          if Ascii.eqb c "}"
          then emit_field f used n (fun u => format_from Lit u n s')
          else format_from (Field (f ++ String c EmptyString)) used n s'
      | Close =>
          if Ascii.eqb c "}" then res_map (String "}") (format_from Lit used n s')
          else Some (Raise (ValueError "Single '}' encountered in format string"))
      end
  end.

(** [template.format(n)] *)
Definition py_format (template : string) (n : Z) : option (Res string) :=
  format_from Lit None n template.

(* ===================================================================== *)
(** ** State and exceptions: a small monad *)
(* ===================================================================== *)

(** A computation over a state [S]: it returns or raises, in a new
    state, or gives no verdict ([None]: the fuel of a loop ran out, or a
    format field lies outside the modelled fragment). *)
Definition M (S A : Type) : Type := S -> option (Res A * S).

Definition ret {S A : Type} (a : A) : M S A :=
  fun s => Some (Return a, s).

Definition raise {S A : Type} (e : exn) : M S A :=
  fun s => Some (Raise e, s).

Definition bind {S A B : Type} (c : M S A) (k : A -> M S B) : M S B :=
  fun s =>
    match c s with
    | Some (Return a, s') => k a s'
    | Some (Raise e, s') => Some (Raise e, s')
    | None => None
    end.

Notation "x <- c ;; k" := (bind c (fun x => k))
  (at level 61, c at next level, right associativity).
Notation "c ;;; k" := (bind c (fun _ => k))
  (at level 61, right associativity).

Definition lift_res {S A : Type} (r : Res A) : M S A :=
  match r with
  | Return a => ret a
  | Raise e => raise e
  end.

(** [int(s)] as a computation: [ValueError] when [s] does not read as an
    integer. *)
Definition int {S : Type} (s : string) : M S Z :=
  match py_int s with
  | Some z => ret z
  | None => raise (ValueError_int s)
  end.

(* ===================================================================== *)
(** ** The communication object and the process state *)
(* ===================================================================== *)

(** What a run of the client can touch outside the controller object:
    the transport behind [self._comm] (state [dev]), the commands handed
    to it so far ([sent], oldest first; one entry per round trip), and
    the lines written by [print] ([stdout]). *)
Record IO (T : Type) : Type := mkIO {
  dev : T;
  sent : list string;
  stdout : list string
}.
Arguments mkIO {T} dev sent stdout.
Arguments dev {T} i.
Arguments sent {T} i.
Arguments stdout {T} i.

(** [SmaractBaseAxis]: the axis number; the back reference [_ctrl] is
    the controller the computation runs on. *)
Record Axis : Type := SmaractBaseAxis { _axis_nr : Z }.

(** [SmaractBaseController] is a [list] of axes that owns [_comm]. *)
Record Ctrl (T : Type) : Type := mkCtrl {
  _comm : IO T;
  items : list Axis
}.
Arguments mkCtrl {T} _comm items.
Arguments _comm {T} c.
Arguments items {T} c.

(** The communication object behind [self._comm]: [comm_send_cmd] is one
    request/reply round trip on a transport whose state has type [T]. *)
Class Transport (T : Type) : Type := {
  comm_send_cmd : string -> T -> string * T
}.

Definition COUN : string := ":SYST:ERR:COUN?".
Definition NEXT : string := ":SYST:ERR:NEXT?".

(** [list.pop()] *)
Definition list_pop {A : Type} (l : list A) : Res (A * list A) :=
  match rev l with
  | [] => Raise (IndexError "pop from empty list")
  | a :: r => Return (a, rev r)
  end.

(** The [while True: self.pop()] of [_create_axes]: it can only end by
    the exception of [pop]. *)
Fixpoint pop_forever (fuel : nat) (l : list Axis) : option (exn * list Axis) :=
  match fuel with
  | O => None
  | S fuel' =>
      match list_pop l with
      | Raise e => Some (e, l)
      | Return (_, l') => pop_forever fuel' l'
      end
  end.


(* ===================================================================== *)
(** ** A scripted transport *)
(* ===================================================================== *)

(** A transport that answers the k-th request with the k-th line of a
    script, whatever the request is (an empty line once the script is
    used up).  Every run of the client against a deterministic device
    is a run against the script of that device's replies. *)
Definition scripted_send (cmd : string) (script : list string)
  : string * list string :=
  match script with
  | [] => (EmptyString, [])
  | reply :: rest => (reply, rest)
  end.

#[export] Instance scripted : Transport (list string) := {
  comm_send_cmd := scripted_send
}.

Definition fresh_io (script : list string) : IO (list string) :=
  mkIO script [] [].

(** A failed command: an informational record, then error 147, then one
    more record that stays in the queue. *)
Definition script_147 : list string :=
  ["GSD0"; "3"; "0,No Error"; "2"; "147,Range Limit Reached Error";
   "1"; "5,Too Few Parameters Error"].

(* ===================================================================== *)
(** ** Pure parts of [_create_axes] *)
(* ===================================================================== *)

(** [':CHAN%d:PTYPE:NAME?' % axis_nr] *)
Definition chan_name_cmd (axis_nr : Z) : string :=
  ":CHAN" ++ fmt_d axis_nr ++ ":PTYPE:NAME?".

(** Line 188: every double quote and every carriage return is removed
    from [ans], and the text before the first dot is kept. *)
Definition sensor_code_of (ans : string) : Res string :=
  py_index
    (py_rsplit "." (py_replace_empty cr (py_replace_empty dquote ans))) 0.

Definition no_axis_class_msg (axis_nr : Z) (sensor_code : string) : string :=
  ("Failed to create axis " ++ fmt_d axis_nr ++ String lf EmptyString)
  ++ ("There is not axis class for sensor code " ++ sensor_code).

(* ===================================================================== *)
(** ** Observations on a run *)
(* ===================================================================== *)

(** The commands handed to the transport between two states. *)
Definition new_sent {T : Type} (io io' : IO T) : list string :=
  skipn (length (sent io)) (sent io').

(** Number of round trips of a call, read off its part of the log. *)
Definition round_trips (log : list string) : nat := length log.

(** Number of error records a call of [send_cmd] has read: the
    next-error queries that follow the command itself. *)
Definition records_read (log : list string) : nat :=
  count_occ string_dec (tl log) NEXT.

(** The requests of [n] rounds of the drain loop that read a record. *)
Fixpoint poll_cmds (n : nat) : list string :=
  match n with
  | O => []
  | S n' => COUN :: NEXT :: poll_cmds n'
  end.

(** The two fields [send_cmd] takes from a next-error reply: the first
    comma-separated field read as an integer, and the second field. *)
Definition record_fields (resp : string) : option (Z * string) :=
  match nth_error (py_rsplit "," resp) 0, nth_error (py_rsplit "," resp) 1 with
  | Some f0, Some f1 =>
      match py_int f0 with
      | Some c => Some (c, f1)
      | None => None
      end
  | _, _ => None
  end.

(** A reply that [send_cmd] reads as a record with code 0. *)
Definition zero_record (resp : string) : Prop :=
  exists message, record_fields resp = Some (0%Z, message).

(** ['Error %d: %s' % (error_code, error_msg)] *)
Definition error_text (error_code : Z) (error_msg : string) : string :=
  "Error " ++ fmt_d error_code ++ ": " ++ error_msg.

(** The text of [message] before its first comma. *)
Definition before_comma (message : string) : string :=
  hd EmptyString (py_rsplit "," message).

Definition comma_free (s : string) : bool :=
  all_chars (fun c => negb (Ascii.eqb c ",")) s.

(** The wire form of an error record. *)
Definition record_line (code : Z) (message : string) : string :=
  fmt_d code ++ "," ++ message.

(** A record of the error queue, code and message, as it is on the
    wire. *)
Definition record_wire (r : Z * string) : string :=
  record_line (fst r) (snd r).

(** [needle] occurs in [s]. *)
Fixpoint contains (needle s : string) : bool :=
  prefix needle s ||
  match s with
  | EmptyString => false
  | String _ s' => contains needle s'
  end.

(** The [n] consecutive integers from [k] on. *)
Fixpoint zrange (k : Z) (n : nat) : list Z :=
  match n with
  | O => []
  | S n' => k :: zrange (k + 1) n'
  end.

(** A request of the drain loop. *)
Definition drain_query (cmd : string) : Prop := cmd = COUN \/ cmd = NEXT.

(** The sensor codes for which [_create_axes] has an axis class. *)
Definition known_codes : list string :=
  ["SL"; "SR"; "CUSTOM0"; "CUSTOM1"; "CUSTOM2"; "CUSTOM3"].

Definition known_reply (ans : string) : Prop :=
  exists code, sensor_code_of ans = Return code /\ py_in code known_codes = true.


(** Case-insensitive equality of byte strings, character by
    character. *)
Fixpoint eq_nocase (s t : string) : bool :=
  match s, t with
  | EmptyString, EmptyString => true
  | String a s', String b t' =>
      Ascii.eqb (lower_ascii a) (lower_ascii b) && eq_nocase s' t'
  | _, _ => false
  end.

(* ===================================================================== *)
(** ** Reading the axis number back from a command *)
(* ===================================================================== *)

Fixpoint strip_prefix (p s : string) : option string :=
  match p with
  | EmptyString => Some s
  | String a p' =>
      match s with
      | String b s' => if Ascii.eqb a b then strip_prefix p' s' else None
      | EmptyString => None
      end
  end.

Definition string_rev (s : string) : string :=
  string_of_list_ascii (rev (list_ascii_of_string s)).

Definition strip_suffix (p s : string) : option string :=
  option_map string_rev (strip_prefix (string_rev p) (string_rev s)).

(** Modelled from the spec: the repository has no function that reads an
    axis number out of a command; the spec only speaks of "parsing it
    back".  The reader below is the inverse of formatting with a
    template [before ++ "{:d}" ++ after]: it removes the literal text on
    both sides of the placeholder and reads what is left as an
    integer. *)
Definition parse_axis_nr (before after cmd : string) : option Z :=
  match strip_prefix before cmd with
  | Some rest =>
      match strip_suffix after rest with
      | Some field => py_int field
      | None => None
      end
  | None => None
  end.

(** A template made of literal text around one [{:d}] placeholder. *)
Definition template (before after : string) : string :=
  before ++ "{:d}" ++ after.

Fixpoint brace_free (s : string) : bool :=
  match s with
  | EmptyString => true
  | String c s' =>
      negb (Ascii.eqb c "{") && negb (Ascii.eqb c "}") && brace_free s'
  end.

(* ===================================================================== *)
(** ** The client *)
(* ===================================================================== *)

Section Client.

Context {T : Type} {transport : Transport T}.

Definition comm (cmd : string) : M (IO T) string :=
  fun io =>
    let (reply, d) := comm_send_cmd cmd (dev io) in
    Some (Return reply, mkIO d (sent io ++ [cmd]) (stdout io)).

Definition print (line : string) : M (IO T) unit :=
  fun io => Some (Return tt, mkIO (dev io) (sent io) (stdout io ++ [line])).

(** *** controller.py, [SmaractBaseController.send_cmd] *)

(** The [while True] loop (lines 114-125). *)
Fixpoint send_cmd_loop (fuel : nat) : M (IO T) unit :=
  match fuel with
  | O => fun _ => None
  | S fuel' =>
      c <- comm COUN ;;
      err <- int c ;;
      if (err =? 0)%Z then ret tt
      else
        resp <- comm NEXT ;;
        print resp ;;;
        f0 <- lift_res (py_index (py_rsplit "," resp) 0) ;;
        error_code <- int f0 ;;
        error_msg <- lift_res (py_index (py_rsplit "," resp) 1) ;;
        if negb (error_code =? 0)%Z
        then raise (RuntimeError (error_text error_code error_msg))
        else send_cmd_loop fuel'
  end.

Definition send_cmd (fuel : nat) (cmd : string) : M (IO T) string :=
  ans <- comm cmd ;;
  send_cmd_loop fuel ;;;
  ret ans.

(** *** controller.py, the controller as a list of axes *)

Definition on_comm {A : Type} (c : M (IO T) A) : M (Ctrl T) A :=
  fun self =>
    match c (_comm self) with
    | Some (r, io) => Some (r, mkCtrl io (items self))
    | None => None
    end.

Definition self_append (axis : Axis) : M (Ctrl T) unit :=
  fun self => Some (Return tt, mkCtrl (_comm self) (items self ++ [axis])).

(** Lines 180-184: pop until [IndexError], which is swallowed. *)
Definition pop_all : M (Ctrl T) unit :=
  fun self =>
    match pop_forever (S (length (items self))) (items self) with
    | Some (IndexError _, l) => Some (Return tt, mkCtrl (_comm self) l)
    | Some (e, l) => Some (Raise e, mkCtrl (_comm self) l)
    | None => None
    end.

(** The property [nchannels]. *)
Definition nchannels (fuel : nat) : M (Ctrl T) Z :=
  ans <- on_comm (send_cmd fuel ":DEV:NOCH?") ;;
  int ans.

(** The [for axis_nr in range(...)] loop (lines 186-201). *)
Fixpoint create_axes_loop (fuel : nat) (idxs : list Z) : M (Ctrl T) unit :=
  match idxs with
  | [] => ret tt
  | axis_nr :: rest =>
      ans <- on_comm (send_cmd fuel (chan_name_cmd axis_nr)) ;;
      sensor_code <- lift_res (sensor_code_of ans) ;;
      if py_in sensor_code ["SL"] then
        self_append (SmaractBaseAxis axis_nr) ;;;
        create_axes_loop fuel rest
      else if py_in sensor_code ["SR"] then
        self_append (SmaractBaseAxis axis_nr) ;;;
        create_axes_loop fuel rest
      else if py_in sensor_code ["CUSTOM0"; "CUSTOM1"; "CUSTOM2"; "CUSTOM3"] then
        self_append (SmaractBaseAxis axis_nr) ;;;
        create_axes_loop fuel rest
      else
        raise (RuntimeError (no_axis_class_msg axis_nr sensor_code))
  end.

(** [SmaractMCSController._create_axes] *)
Definition _create_axes (fuel : nat) : M (Ctrl T) unit :=
  pop_all ;;;
  n <- nchannels fuel ;;
  create_axes_loop fuel (py_range n).

(** *** axis.py *)

(** [SmaractBaseAxis._send_cmd(str_cmd, *pars)]: only the axis number is
    given to [format]; [pars] is not used. *)
Definition _send_cmd (fuel : nat) (self : Axis) (str_cmd : string)
    (pars : list Z) : M (IO T) string :=
  match py_format str_cmd (_axis_nr self) with
  | Some (Return cmd) => send_cmd fuel cmd
  | Some (Raise e) => raise e
  | None => fun _ => None
  end.

(** The setter of the property [safe_direction]. *)
Definition safe_direction_setter (fuel : nat) (self : Axis)
    (direction : string) : M (IO T) unit :=
  let direction := py_lower direction in
  value <- (if String.eqb direction "forward" then ret 0%Z
            else if String.eqb direction "backward" then ret 1%Z
            else raise (ValueError "Read the help")) ;;
  _send_cmd fuel self "SSD" [value] ;;;
  ret tt.

(** *** Runs of the error queue and of the enumeration *)

(** [polls d rs d']: from transport state [d], polling the error queue
    hands out the replies [rs] one after the other, the error count read
    before each of them being nonzero, and leaves the transport in
    [d']. *)
Inductive polls : T -> list string -> T -> Prop :=
| polls_nil d : polls d [] d
| polls_cons d c d1 n resp d2 rest d3 :
    comm_send_cmd COUN d = (c, d1) ->
    py_int c = Some n ->
    n <> 0%Z ->
    comm_send_cmd NEXT d1 = (resp, d2) ->
    polls d2 rest d3 ->
    polls d (resp :: rest) d3.

(** [send_cmd cmd] returns [ans], given enough fuel. *)
Definition returns (cmd : string) (io : IO T) (ans : string) (io' : IO T)
  : Prop :=
  exists fuel, send_cmd fuel cmd io = Some (Return ans, io').

(** [channel_answers io k answers io']: the sensor-name queries for the
    channels [k], [k+1], ... return [answers], in this order. *)
Inductive channel_answers : IO T -> Z -> list string -> IO T -> Prop :=
| channel_answers_nil io k : channel_answers io k [] io
| channel_answers_cons io k ans io1 rest io' :
    returns (chan_name_cmd k) io ans io1 ->
    channel_answers io1 (k + 1) rest io' ->
    channel_answers io k (ans :: rest) io'.

End Client.

(* ===================================================================== *)
(** ** More built-ins, for the remaining methods *)
(* ===================================================================== *)

Fixpoint last_char (s : string) : option ascii :=
  match s with
  | EmptyString => None
  | String c s' =>
      match last_char s' with
      | None => Some c
      | Some d => Some d
      end
  end.

(** [s[-1]] on a string: its last character, as a string. *)
Definition py_str_last (s : string) : Res string :=
  match last_char s with
  | Some c => Return (String c EmptyString)
  | None => Raise (IndexError "string index out of range")
  end.

(** [l[i]] for an integer [i]: a negative [i] counts from the end. *)
Definition py_getitem {A : Type} (l : list A) (i : Z) : Res A :=
  let n := Z.of_nat (length l) in
  let j := if (i <? 0)%Z then (i + n)%Z else i in
  if ((0 <=? j) && (j <? n))%Z then py_index l (Z.to_nat j)
  else Raise (IndexError "list index out of range").

(** [s.strip(c)] for a one-character [c]. *)
Fixpoint lstrip_char (c : ascii) (s : string) : string :=
  match s with
  | EmptyString => EmptyString
  | String a s' => if Ascii.eqb a c then lstrip_char c s' else s
  end.

Fixpoint rstrip_char (c : ascii) (s : string) : string :=
  match s with
  | EmptyString => EmptyString
  | String a s' =>
      match rstrip_char c s' with
      | EmptyString => if Ascii.eqb a c then EmptyString else String a EmptyString
      | r => String a r
      end
  end.

Definition py_strip_char (c : ascii) (s : string) : string :=
  rstrip_char c (lstrip_char c s).

(** A character that may end a sensor code taken by [_create_axes]. *)
Definition code_char (c : ascii) : bool :=
  negb (Ascii.eqb c ".") && negb (Ascii.eqb c dquote) && negb (Ascii.eqb c cr).

(** A transport whose error queue never empties: the count is always 1
    and the next record is always informational. *)
Definition stuck_send (cmd : string) (d : unit) : string * unit :=
  (if String.eqb cmd COUN then "1" else "0,No Error", tt).

#[export] Instance stuck : Transport unit := {
  comm_send_cmd := stuck_send
}.

(* ===================================================================== *)
(** ** The client: the remaining methods *)
(* ===================================================================== *)

Section ClientMethods.

Context {T : Type} {transport : Transport T}.

(** *** axis.py *)

(** The getter of the property [safe_direction]. *)
Definition safe_direction (fuel : nat) (self : Axis) : M (IO T) string :=
  ans <- _send_cmd fuel self "GSD" [] ;;
  ch <- lift_res (py_str_last ans) ;;
  direction <- int ch ;;
  lift_res (py_getitem ["forward"; "backward"] direction).

(** The property [sensor_type]. *)
Definition sensor_type (fuel : nat) (self : Axis) : M (IO T) string :=
  ans <- _send_cmd fuel self ":CHAN{:d}:PTYPE:NAME?" [] ;;
  lift_res (py_index (py_rsplit "." (py_strip_char dquote ans)) 0).

(** The property [state]. *)
Definition state (fuel : nat) (self : Axis) : M (IO T) Z :=
  ans <- _send_cmd fuel self "GS" [] ;;
  field <- lift_res (py_index (py_rsplit "," ans) 1) ;;
  int field.

(** [move(position)] for an integer position: [str(position)] is its
    decimal form. *)
Definition move (fuel : nat) (self : Axis) (position : Z) : M (IO T) unit :=
  _send_cmd fuel self (":MOVE{:d} " ++ fmt_d position) [] ;;;
  ret tt.

Definition calibrate_sensor (fuel : nat) (self : Axis) : M (IO T) unit :=
  _send_cmd fuel self ":CAL{:d}" [] ;;;
  ret tt.

(** The three parameters are not used by the body. *)
Definition find_reference_mark (fuel : nat) (self : Axis)
    (direction hold_time auto_zero : Z) : M (IO T) unit :=
  _send_cmd fuel self ":REF{:d}" [] ;;;
  ret tt.

(** [positioner_mode(mode)] for an integer mode: [str(int(mode))]. *)
Definition positioner_mode (fuel : nat) (self : Axis) (mode : Z)
  : M (IO T) unit :=
  _send_cmd fuel self (":CHAN{:d}:MMOD " ++ fmt_d mode) [] ;;;
  ret tt.

Definition stop (fuel : nat) (self : Axis) : M (IO T) unit :=
  _send_cmd fuel self ":STOP{:d}" [] ;;;
  ret tt.

(** *** controller.py *)

(** The getter of the property [sensor_enabled]: [str(ans[-1])]. *)
Definition sensor_enabled (fuel : nat) : M (Ctrl T) string :=
  ans <- on_comm (send_cmd fuel "GSE") ;;
  lift_res (py_str_last ans).

(** The requests [cmds] handed one after the other to the transport in
    state [d], each with the reply it gets. *)
Fixpoint replay (d : T) (cmds : list string) : list (string * string) :=
  match cmds with
  | [] => []
  | cmd :: rest =>
      let (reply, d') := comm_send_cmd cmd d in
      (cmd, reply) :: replay d' rest
  end.

(** The replies the transport gives to the next-error queries of a call
    whose requests are [log] (the command itself comes first and is not
    one of them), in the order of the queries. *)
Definition next_error_replies (d : T) (log : list string) : list string :=
  map snd (filter (fun p => String.eqb (fst p) NEXT) (tl (replay d log))).

(** [send_cmd cmd] raises [e], given enough fuel. *)
Definition raises (cmd : string) (io : IO T) (e : exn) (io' : IO T) : Prop :=
  exists fuel, send_cmd fuel cmd io = Some (Raise e, io').

(** A set of transport states from which the error queue never empties:
    the count is nonzero, the record read has code 0, and the state
    reached is in the set again. *)
Definition never_empties (P : T -> Prop) : Prop :=
  forall d, P d ->
    exists c d1 n resp d2,
      comm_send_cmd COUN d = (c, d1) /\ py_int c = Some n /\ n <> 0%Z /\
      comm_send_cmd NEXT d1 = (resp, d2) /\ zero_record resp /\ P d2.

End ClientMethods.

(* ===================================================================== *)
(** * Facts about the built-ins *)
(* ===================================================================== *)

Lemma all_chars_app p s t :
  all_chars p (s ++ t) = all_chars p s && all_chars p t.
Proof.
  induction s as [|c s IH]; simpl; [reflexivity|].
  rewrite IH. now rewrite andb_assoc.
Qed.

Lemma all_chars_weaken (p q : ascii -> bool) s :
  (forall c, p c = true -> q c = true) ->
  all_chars p s = true -> all_chars q s = true.
Proof.
  intros Hpq. induction s as [|c s IH]; simpl; [reflexivity|].
  intros H. apply andb_true_iff in H as [Hc Hs].
  now rewrite (Hpq _ Hc), IH.
Qed.

Lemma lstrip_no_space s :
  all_chars (fun c => negb (is_space c)) s = true -> lstrip s = s.
Proof.
  destruct s as [|c s]; simpl; [reflexivity|].
  intros H. apply andb_true_iff in H as [Hc _].
  apply negb_true_iff in Hc. now rewrite Hc.
Qed.

Lemma rstrip_no_space s :
  all_chars (fun c => negb (is_space c)) s = true -> rstrip s = s.
Proof.
  induction s as [|c s IH]; simpl; [reflexivity|].
  intros H. apply andb_true_iff in H as [Hc Hs].
  apply negb_true_iff in Hc. rewrite (IH Hs), Hc.
  now destruct s.
Qed.

Lemma py_strip_no_space s :
  all_chars (fun c => negb (is_space c)) s = true -> py_strip s = s.
Proof.
  intros H. unfold py_strip. rewrite (lstrip_no_space _ H).
  now apply rstrip_no_space.
Qed.

Lemma digit_not_space c : is_digit c = true -> negb (is_space c) = true.
Proof.
  unfold is_digit, is_space. intros H.
  apply andb_true_iff in H as [H1 H2].
  apply Nat.leb_le in H1. apply Nat.leb_le in H2.
  apply negb_true_iff, orb_false_iff. split.
  - apply Nat.eqb_neq. lia.
  - apply andb_false_iff. right. apply Nat.leb_gt. lia.
Qed.

Lemma string_of_uint_digits d :
  all_chars is_digit (NilEmpty.string_of_uint d) = true.
Proof. induction d; simpl; auto. Qed.

Lemma nilzero_string_of_uint_digits d :
  all_chars is_digit (NilZero.string_of_uint d) = true.
Proof.
  destruct d; try apply (string_of_uint_digits (_ _)); reflexivity.
Qed.

(** An unsigned digit string reads as the number it writes. *)
Lemma py_int_digits s :
  all_chars is_digit s = true ->
  py_int s = option_map Z.of_uint (NilZero.uint_of_string s).
Proof.
  intros H. unfold py_int.
  rewrite py_strip_no_space
    by (eapply all_chars_weaken; [apply digit_not_space | exact H]).
  destruct s as [|c s]; [reflexivity|].
  simpl in H. apply andb_true_iff in H as [Hc _].
  destruct c as [[] [] [] [] [] [] [] []]; try discriminate Hc; reflexivity.
Qed.

Lemma uint_of_string_of_uint d :
  NilZero.uint_of_string (NilZero.string_of_uint d)
  = Some (match d with Decimal.Nil => Decimal.D0 Decimal.Nil | _ => d end).
Proof.
  destruct d; try (apply NilZero.usu; discriminate); reflexivity.
Qed.

Lemma py_int_string_of_uint d :
  py_int (NilZero.string_of_uint d) = Some (Z.of_uint d).
Proof.
  rewrite py_int_digits by apply nilzero_string_of_uint_digits.
  rewrite uint_of_string_of_uint. now destruct d.
Qed.

(** [int(str(n)) == n] *)
Lemma py_int_fmt_d n : py_int (fmt_d n) = Some n.
Proof.
  unfold fmt_d. destruct n as [|p|p]; simpl Z.to_int; simpl NilZero.string_of_int.
  - reflexivity.
  - rewrite py_int_string_of_uint. f_equal.
    change (Z.of_int (Z.to_int (Z.pos p)) = Z.pos p). apply DecimalZ.of_to.
  - unfold py_int.
    assert (Hs : all_chars (fun c => negb (is_space c))
                   (String "-" (NilZero.string_of_uint (Pos.to_uint p))) = true).
    { simpl. eapply all_chars_weaken; [apply digit_not_space|].
      apply nilzero_string_of_uint_digits. }
    rewrite (py_strip_no_space _ Hs).
    rewrite uint_of_string_of_uint. simpl option_map. f_equal.
    assert (H := DecimalZ.of_to (Z.neg p)). simpl in H.
    destruct (Pos.to_uint p); exact H.
Qed.

Lemma fmt_d_nonneg_digits n :
  (0 <= n)%Z -> all_chars is_digit (fmt_d n) = true.
Proof.
  intros Hn. unfold fmt_d. destruct n as [|p|p]; try lia.
  - reflexivity.
  - apply nilzero_string_of_uint_digits.
Qed.

Lemma fmt_d_comma_free n : comma_free (fmt_d n) = true.
Proof.
  assert (Hd : forall d, comma_free (NilZero.string_of_uint d) = true).
  { intros d. unfold comma_free.
    eapply all_chars_weaken; [|apply nilzero_string_of_uint_digits].
    intros c Hc.
    destruct c as [[] [] [] [] [] [] [] []]; try discriminate Hc; reflexivity. }
  unfold fmt_d. destruct n as [|p|p]; simpl Z.to_int; simpl NilZero.string_of_int.
  - reflexivity.
  - apply Hd.
  - unfold comma_free. simpl. apply Hd.
Qed.

Lemma py_rsplit_nonempty sep s : py_rsplit sep s <> [].
Proof.
  destruct s as [|c s]; simpl; [discriminate|].
  destruct (Ascii.eqb c sep); [discriminate|].
  destruct (py_rsplit sep s); discriminate.
Qed.

Lemma py_rsplit_no_sep sep s :
  all_chars (fun c => negb (Ascii.eqb c sep)) s = true ->
  py_rsplit sep s = [s].
Proof.
  induction s as [|c s IH]; simpl; [reflexivity|].
  intros H. apply andb_true_iff in H as [Hc Hs].
  apply negb_true_iff in Hc. now rewrite Hc, (IH Hs).
Qed.

Lemma py_rsplit_app_sep sep a m :
  all_chars (fun c => negb (Ascii.eqb c sep)) a = true ->
  py_rsplit sep (a ++ String sep m) = a :: py_rsplit sep m.
Proof.
  induction a as [|c a IH]; simpl.
  - intros _. now rewrite Ascii.eqb_refl.
  - intros H. apply andb_true_iff in H as [Hc Ha].
    apply negb_true_iff in Hc. now rewrite Hc, (IH Ha).
Qed.

Lemma before_comma_comma_free m : comma_free m = true -> before_comma m = m.
Proof.
  intros H. unfold before_comma. now rewrite py_rsplit_no_sep.
Qed.

(** What [send_cmd] extracts from a record on the wire: the code, and
    the message up to its first comma. *)
Lemma record_fields_record_line code message :
  record_fields (record_line code message)
  = Some (code, before_comma message).
Proof.
  unfold record_fields, record_line, before_comma.
  change ("," ++ message)%string with (String "," message).
  rewrite py_rsplit_app_sep by apply fmt_d_comma_free.
  destruct (py_rsplit "," message) eqn:E.
  - now apply py_rsplit_nonempty in E.
  - cbn [nth_error hd]. now rewrite py_int_fmt_d.
Qed.

Lemma prefix_app s t : prefix s (s ++ t) = true.
Proof.
  induction s as [|c s IH]; simpl; [now destruct t|].
  destruct (ascii_dec c c); [exact IH | congruence].
Qed.

Lemma contains_prefix needle s : prefix needle s = true -> contains needle s = true.
Proof. destruct s; simpl; intros ->; reflexivity. Qed.

Lemma contains_app needle a b : contains needle (a ++ needle ++ b) = true.
Proof.
  induction a as [|c a IH].
  - change (contains needle (needle ++ b)%string = true).
    apply contains_prefix, prefix_app.
  - simpl. rewrite IH. apply orb_true_r.
Qed.

Lemma string_app_assoc (a b c : string) :
  (a ++ (b ++ c))%string = ((a ++ b) ++ c)%string.
Proof. induction a as [|x a IH]; simpl; [reflexivity | now rewrite IH]. Qed.

Lemma contains_suffix needle a : contains needle (a ++ needle) = true.
Proof.
  assert (H := contains_app needle a EmptyString).
  assert (E : forall s : string, (s ++ "")%string = s)
    by (induction s; simpl; congruence).
  now rewrite E in H.
Qed.

Lemma strip_prefix_app p s : strip_prefix p (p ++ s) = Some s.
Proof.
  induction p as [|c p IH]; simpl; [reflexivity|].
  now rewrite Ascii.eqb_refl.
Qed.

Lemma list_ascii_of_string_app s t :
  list_ascii_of_string (s ++ t)
  = (list_ascii_of_string s ++ list_ascii_of_string t)%list.
Proof. induction s; simpl; congruence. Qed.

Lemma string_of_list_ascii_app l l' :
  string_of_list_ascii (l ++ l')%list
  = (string_of_list_ascii l ++ string_of_list_ascii l')%string.
Proof. induction l; simpl; congruence. Qed.

Lemma string_rev_app s t :
  string_rev (s ++ t) = (string_rev t ++ string_rev s)%string.
Proof.
  unfold string_rev.
  now rewrite list_ascii_of_string_app, rev_app_distr, string_of_list_ascii_app.
Qed.

Lemma string_rev_involutive s : string_rev (string_rev s) = s.
Proof.
  unfold string_rev.
  now rewrite list_ascii_of_string_of_list_ascii, rev_involutive,
    string_of_list_ascii_of_string.
Qed.

Lemma strip_suffix_app p s : strip_suffix p (s ++ p) = Some s.
Proof.
  unfold strip_suffix.
  rewrite string_rev_app, strip_prefix_app. simpl.
  now rewrite string_rev_involutive.
Qed.

(** Literal text is copied by [format]. *)
Lemma format_from_literal used n s rest :
  brace_free s = true ->
  format_from Lit used n (s ++ rest)
  = res_map (String.append s) (format_from Lit used n rest).
Proof.
  induction s as [|c s IH]; simpl.
  - intros _. now destruct (format_from Lit used n rest) as [[]|].
  - intros H. apply andb_true_iff in H as [H Hs].
    apply andb_true_iff in H as [H1 H2].
    apply negb_true_iff in H1. apply negb_true_iff in H2.
    rewrite H1, H2, (IH Hs).
    now destruct (format_from Lit used n rest) as [[]|].
Qed.

Lemma format_from_brace_free used n s :
  brace_free s = true -> format_from Lit used n s = Some (Return s).
Proof.
  intros H.
  assert (E : s = (s ++ "")%string) by (clear; induction s; simpl; congruence).
  rewrite E at 1. rewrite (format_from_literal _ _ _ _ H). simpl.
  now rewrite <- E.
Qed.

(** A template with one [{:d}] placeholder: the axis number is written
    in decimal at the placeholder. *)
Lemma py_format_template before after n :
  brace_free before = true -> brace_free after = true ->
  py_format (template before after) n
  = Some (Return (before ++ fmt_d n ++ after)%string).
Proof.
  intros Hb Ha. unfold py_format, template.
  rewrite (format_from_literal _ _ _ _ Hb).
  simpl format_from. unfold emit_field. simpl classify_field.
  rewrite (format_from_brace_free _ _ _ Ha). reflexivity.
Qed.

(* ===================================================================== *)
(** * Facts about the client *)
(* ===================================================================== *)

Section ClientFacts.

Context {T : Type} {transport : Transport T}.

(** ** The drain loop, one round at a time *)

(** One round of the [while True] loop, written out. *)
Lemma send_cmd_loop_step fuel (io : IO T) :
  send_cmd_loop (S fuel) io =
  let (c, d1) := comm_send_cmd COUN (dev io) in
  let io1 := mkIO d1 (sent io ++ [COUN]) (stdout io) in
  match py_int c with
  | None => Some (Raise (ValueError_int c), io1)
  | Some err =>
      if (err =? 0)%Z then Some (Return tt, io1)
      else
        let (resp, d2) := comm_send_cmd NEXT d1 in
        let io2 := mkIO d2 (sent io ++ [COUN; NEXT]) (stdout io ++ [resp]) in
        match py_rsplit "," resp with
        | [] => Some (Raise (IndexError "list index out of range"), io2)
        | f0 :: fs =>
            match py_int f0 with
            | None => Some (Raise (ValueError_int f0), io2)
            | Some code =>
                match fs with
                | [] => Some (Raise (IndexError "list index out of range"), io2)
                | msg :: _ =>
                    if (code =? 0)%Z then send_cmd_loop fuel io2
                    else Some (Raise (RuntimeError (error_text code msg)), io2)
                end
            end
        end
  end.
Proof.
  cbn [send_cmd_loop]. unfold bind, comm, int, print, ret, raise. cbn [dev sent stdout].
  destruct (comm_send_cmd COUN (dev io)) as [c d1].
  destruct (py_int c) as [err|]; [|reflexivity].
  destruct (err =? 0)%Z; [reflexivity|].
  cbn [dev sent stdout].
  destruct (comm_send_cmd NEXT d1) as [resp d2]. cbn [dev sent stdout].
  rewrite <- app_assoc. cbn [app].
  destruct (py_rsplit "," resp) as [|f0 fs]; [reflexivity|].
  cbn [py_index nth_error lift_res]. unfold ret.
  destruct (py_int f0) as [code|]; [|reflexivity].
  destruct fs as [|msg fs]; [reflexivity|].
  cbn [nth_error lift_res]. unfold ret.
  now destruct (code =? 0)%Z.
Qed.

Lemma record_fields_spec resp code message :
  record_fields resp = Some (code, message) <->
  exists f0 fs, py_rsplit "," resp = f0 :: message :: fs /\ py_int f0 = Some code.
Proof.
  unfold record_fields.
  destruct (py_rsplit "," resp) as [|f0 [|f1 fs]]; cbn [nth_error].
  - split; [discriminate | intros (? & ? & [=] & _)].
  - split; [discriminate | intros (? & ? & [=] & _)].
  - split.
    + destruct (py_int f0) eqn:E; [|discriminate].
      intros [= <- <-]. now exists f0, fs.
    + intros (g0 & gs & [= <- <- <-] & ->). reflexivity.
Qed.

(** The loop stops at a count of 0, without reading a record. *)
Lemma send_cmd_loop_count_zero fuel (io : IO T) c d1 :
  comm_send_cmd COUN (dev io) = (c, d1) ->
  py_int c = Some 0%Z ->
  send_cmd_loop (S fuel) io
  = Some (Return tt, mkIO d1 (sent io ++ [COUN]) (stdout io)).
Proof.
  intros Hc Hi. rewrite send_cmd_loop_step, Hc, Hi. reflexivity.
Qed.

(** A record with code 0 is read through: the loop goes round again. *)
Lemma send_cmd_loop_zero_record fuel (io : IO T) c d1 n resp d2 :
  comm_send_cmd COUN (dev io) = (c, d1) ->
  py_int c = Some n -> n <> 0%Z ->
  comm_send_cmd NEXT d1 = (resp, d2) ->
  zero_record resp ->
  send_cmd_loop (S fuel) io
  = send_cmd_loop fuel (mkIO d2 (sent io ++ [COUN; NEXT]) (stdout io ++ [resp])).
Proof.
  intros Hc Hi Hn Hr [m Hz]. apply record_fields_spec in Hz as (f0 & fs & Hs & Hf).
  rewrite send_cmd_loop_step, Hc, Hi.
  apply Z.eqb_neq in Hn. rewrite Hn, Hr. cbn zeta. now rewrite Hs, Hf.
Qed.

(** A record with a nonzero code ends the loop by an exception. *)
Lemma send_cmd_loop_nonzero_record fuel (io : IO T) c d1 n resp d2 code message :
  comm_send_cmd COUN (dev io) = (c, d1) ->
  py_int c = Some n -> n <> 0%Z ->
  comm_send_cmd NEXT d1 = (resp, d2) ->
  record_fields resp = Some (code, message) -> code <> 0%Z ->
  send_cmd_loop (S fuel) io
  = Some (Raise (RuntimeError (error_text code message)),
          mkIO d2 (sent io ++ [COUN; NEXT]) (stdout io ++ [resp])).
Proof.
  intros Hc Hi Hn Hr Hz Hcode.
  apply record_fields_spec in Hz as (f0 & fs & Hs & Hf).
  rewrite send_cmd_loop_step, Hc, Hi.
  apply Z.eqb_neq in Hn. rewrite Hn, Hr. cbn zeta. rewrite Hs, Hf.
  apply Z.eqb_neq in Hcode. now rewrite Hcode.
Qed.

Lemma polls_app d rs1 rs2 d' :
  polls d (rs1 ++ rs2) d' <-> exists dm, polls d rs1 dm /\ polls dm rs2 d'.
Proof.
  split.
  - revert d. induction rs1 as [|r rs1 IH]; intros d H; cbn [app] in H.
    + exists d. split; [constructor | exact H].
    + inversion H as [|? c d1 n ? d2 ? ? Hc Hi Hn Hr Hrest]; subst.
      destruct (IH _ Hrest) as (dm & H1 & H2).
      exists dm. split; [econstructor; eassumption | exact H2].
  - intros (dm & H1 & H2). induction H1; cbn [app]; [exact H2|].
    econstructor; eauto.
Qed.

(** Records with code 0, each announced by a nonzero count, are all read
    through, however many they are. *)
Lemma send_cmd_loop_polls d rs d' :
  polls d rs d' -> Forall zero_record rs ->
  forall fuel log out,
    send_cmd_loop (length rs + fuel) (mkIO d log out)
    = send_cmd_loop fuel (mkIO d' (log ++ poll_cmds (length rs)) (out ++ rs)).
Proof.
  induction 1 as [d|d c d1 n resp d2 rest d3 Hc Hi Hn Hr Hrest IH];
    intros Hz fuel log out.
  - cbn. now rewrite !app_nil_r.
  - inversion Hz as [|? ? Hz1 Hz2]; subst.
    cbn [length Nat.add].
    rewrite (send_cmd_loop_zero_record _ _ c d1 n resp d2) by assumption.
    cbn [sent stdout]. rewrite (IH Hz2).
    cbn [poll_cmds]. now rewrite <- !app_assoc.
Qed.

(** More fuel does not change a verdict. *)
Lemma send_cmd_loop_mono fuel : forall fuel' (io : IO T) r,
  send_cmd_loop fuel io = Some r -> fuel <= fuel' ->
  send_cmd_loop fuel' io = Some r.
Proof.
  induction fuel as [|fuel IH]; intros fuel' io r H Hle; [discriminate|].
  destruct fuel' as [|fuel']; [lia|].
  rewrite send_cmd_loop_step in *.
  destruct (comm_send_cmd COUN (dev io)) as [c d1].
  destruct (py_int c) as [err|]; [|exact H].
  destruct (err =? 0)%Z; [exact H|].
  destruct (comm_send_cmd NEXT d1) as [resp d2]. cbn zeta in *.
  destruct (py_rsplit "," resp) as [|f0 fs]; [exact H|].
  destruct (py_int f0) as [code|]; [|exact H].
  destruct fs as [|msg fs]; [exact H|].
  destruct (code =? 0)%Z; [|exact H].
  apply IH; [exact H | lia].
Qed.

Lemma send_cmd_unfold fuel cmd (io : IO T) :
  send_cmd fuel cmd io =
  let (ans, d1) := comm_send_cmd cmd (dev io) in
  match send_cmd_loop fuel (mkIO d1 (sent io ++ [cmd]) (stdout io)) with
  | Some (Return _, io') => Some (Return ans, io')
  | Some (Raise e, io') => Some (Raise e, io')
  | None => None
  end.
Proof.
  unfold send_cmd, bind, comm, ret.
  destruct (comm_send_cmd cmd (dev io)) as [ans d1].
  now destruct (send_cmd_loop fuel _) as [[[] ?]|].
Qed.

Lemma send_cmd_mono fuel fuel' cmd (io : IO T) r :
  send_cmd fuel cmd io = Some r -> fuel <= fuel' ->
  send_cmd fuel' cmd io = Some r.
Proof.
  rewrite !send_cmd_unfold.
  destruct (comm_send_cmd cmd (dev io)) as [ans d1].
  intros H Hle.
  destruct (send_cmd_loop fuel _) as [r0|] eqn:E; [|discriminate].
  now rewrite (send_cmd_loop_mono _ _ _ _ E Hle).
Qed.

(** A normal end of the loop, taken apart: some records with code 0 were
    read, each after a nonzero count, and then the count was 0. *)
Lemma send_cmd_loop_returns_inv fuel : forall (io io' : IO T),
  send_cmd_loop fuel io = Some (Return tt, io') ->
  exists rs d2 c d3,
    polls (dev io) rs d2 /\ Forall zero_record rs /\
    comm_send_cmd COUN d2 = (c, d3) /\ py_int c = Some 0%Z /\
    io' = mkIO d3 (sent io ++ poll_cmds (length rs) ++ [COUN]) (stdout io ++ rs).
Proof.
  induction fuel as [|fuel IH]; intros io io' H; [discriminate|].
  rewrite send_cmd_loop_step in H.
  destruct (comm_send_cmd COUN (dev io)) as [c d1] eqn:Hc.
  destruct (py_int c) as [err|] eqn:Hi; [|discriminate].
  destruct (err =? 0)%Z eqn:He.
  - apply Z.eqb_eq in He. subst err. injection H as <-.
    exists [], (dev io), c, d1. cbn [length poll_cmds app].
    rewrite app_nil_r. repeat split; auto. constructor.
  - destruct (comm_send_cmd NEXT d1) as [resp d2] eqn:Hr. cbn zeta in H.
    destruct (py_rsplit "," resp) as [|f0 fs] eqn:Hs; [discriminate|].
    destruct (py_int f0) as [code|] eqn:Hf; [|discriminate].
    destruct fs as [|msg fs]; [discriminate|].
    destruct (code =? 0)%Z eqn:Hz; [|discriminate].
    apply Z.eqb_eq in Hz. subst code. apply Z.eqb_neq in He.
    destruct (IH _ _ H) as (rs & d3 & c' & d4 & Hp & Hall & Hc' & Hi' & ->).
    cbn [dev sent stdout] in *.
    exists (resp :: rs), d3, c', d4. repeat split; auto.
    + econstructor; eassumption.
    + constructor; [|exact Hall]. exists msg.
      apply record_fields_spec. now exists f0, fs.
    + cbn [length poll_cmds]. now rewrite <- !app_assoc.
Qed.

(** An end of the loop by the controller error, taken apart: the last
    reply read (and printed) has a nonzero code, and the message of the
    exception is made of the two fields of that reply. *)
Lemma send_cmd_loop_runtime_error_inv fuel : forall (io io' : IO T) msg,
  send_cmd_loop fuel io = Some (Raise (RuntimeError msg), io') ->
  exists resp code text,
    last (stdout io') EmptyString = resp /\
    record_fields resp = Some (code, text) /\ code <> 0%Z /\
    msg = error_text code text.
Proof.
  induction fuel as [|fuel IH]; intros io io' m H; [discriminate|].
  rewrite send_cmd_loop_step in H.
  destruct (comm_send_cmd COUN (dev io)) as [c d1].
  destruct (py_int c) as [err|]; [|discriminate].
  destruct (err =? 0)%Z; [discriminate|].
  destruct (comm_send_cmd NEXT d1) as [resp d2]. cbn zeta in H.
  destruct (py_rsplit "," resp) as [|f0 fs] eqn:Hs; [discriminate|].
  destruct (py_int f0) as [code|] eqn:Hf; [|discriminate].
  destruct fs as [|text fs]; [discriminate|].
  destruct (code =? 0)%Z eqn:Hz.
  - exact (IH _ _ _ H).
  - injection H as <- <-. apply Z.eqb_neq in Hz.
    exists resp, code, text. cbn [stdout]. rewrite last_last.
    repeat split; auto. apply record_fields_spec. now exists f0, fs.
Qed.

Lemma count_occ_poll_cmds n l :
  count_occ string_dec (poll_cmds n ++ l) NEXT
  = n + count_occ string_dec l NEXT.
Proof.
  induction n as [|n IH]; [reflexivity|].
  cbn [poll_cmds app]. rewrite count_occ_cons_neq by discriminate.
  rewrite count_occ_cons_eq by reflexivity. now rewrite IH.
Qed.

Lemma count_occ_poll_cmds_only n :
  count_occ string_dec (poll_cmds n) NEXT = n.
Proof.
  rewrite <- (app_nil_r (poll_cmds n)), count_occ_poll_cmds. cbn. lia.
Qed.

Lemma length_poll_cmds n : length (poll_cmds n) = 2 * n.
Proof. induction n as [|n IH]; cbn [poll_cmds length]; lia. Qed.

Lemma new_sent_app (io io' : IO T) log :
  sent io' = sent io ++ log -> new_sent io io' = log.
Proof.
  intros H. unfold new_sent. rewrite H.
  rewrite skipn_app, skipn_all, Nat.sub_diag. reflexivity.
Qed.

(** The requests of any finished run of the loop: rounds of count and
    next-error queries, ended by a count query (the loop returned, or
    the count did not read as an integer) or by the read of the record
    that made it raise. *)
Lemma send_cmd_loop_log fuel : forall (io io' : IO T) out,
  send_cmd_loop fuel io = Some (out, io') ->
  exists n,
    (sent io' = sent io ++ poll_cmds n ++ [COUN] /\
     forall msg, out <> Raise (RuntimeError msg)) \/
    (sent io' = sent io ++ poll_cmds (S n) /\ out <> Return tt).
Proof.
  induction fuel as [|fuel IH]; intros io io' out H; [discriminate|].
  rewrite send_cmd_loop_step in H.
  destruct (comm_send_cmd COUN (dev io)) as [c d1].
  destruct (py_int c) as [err|].
  2:{ injection H as <- <-. exists 0. left. split; [reflexivity | discriminate]. }
  destruct (err =? 0)%Z.
  { injection H as <- <-. exists 0. left. split; [reflexivity | discriminate]. }
  destruct (comm_send_cmd NEXT d1) as [resp d2]. cbn zeta in H.
  assert (Hstop : forall e, out = Raise e ->
            io' = mkIO d2 (sent io ++ [COUN; NEXT]) (stdout io ++ [resp]) ->
            exists n,
              (sent io' = sent io ++ poll_cmds n ++ [COUN] /\
               forall msg, out <> Raise (RuntimeError msg)) \/
              (sent io' = sent io ++ poll_cmds (S n) /\ out <> Return tt)).
  { intros e -> ->. exists 0. right. split; [reflexivity | discriminate]. }
  destruct (py_rsplit "," resp) as [|f0 fs].
  { injection H as <- <-. eapply Hstop; reflexivity. }
  destruct (py_int f0) as [code|].
  2:{ injection H as <- <-. eapply Hstop; reflexivity. }
  destruct fs as [|msg fs].
  { injection H as <- <-. eapply Hstop; reflexivity. }
  destruct (code =? 0)%Z.
  2:{ injection H as <- <-. eapply Hstop; reflexivity. }
  destruct (IH _ _ _ H) as [n [[Hs Ho]|[Hs Ho]]]; cbn [sent] in Hs;
    exists (S n); [left | right]; split; auto;
    rewrite Hs; cbn [poll_cmds]; now rewrite <- !app_assoc.
Qed.

(** ** Claims on [send_cmd] *)

(** C3. When the first error-count query answers 0, [send_cmd] returns
    the reply of the command unchanged and raises nothing; the transport
    has seen the command and that one count query, and no next-error
    query. *)
Theorem send_cmd_no_error_returns_reply fuel cmd (io : IO T) ans d1 c d2 :
  comm_send_cmd cmd (dev io) = (ans, d1) ->
  comm_send_cmd COUN d1 = (c, d2) ->
  py_int c = Some 0%Z ->
  send_cmd (S fuel) cmd io
  = Some (Return ans, mkIO d2 (sent io ++ [cmd; COUN]) (stdout io)).
Proof.
  intros Hcmd Hc Hi. rewrite send_cmd_unfold, Hcmd.
  rewrite (send_cmd_loop_count_zero _ _ c d2) by assumption.
  cbn [sent stdout]. now rewrite <- app_assoc.
Qed.

(** After replies that [send_cmd] reads as records with code 0, a reply
    whose first field reads as a nonzero code ends the call by the
    error made of that code and of the second field of the reply. *)
Lemma send_cmd_raises_on_fields fuel cmd (io : IO T) ans d1 pre resp d2
    code message :
  comm_send_cmd cmd (dev io) = (ans, d1) ->
  polls d1 (pre ++ [resp]) d2 ->
  Forall zero_record pre ->
  record_fields resp = Some (code, message) ->
  code <> 0%Z ->
  length pre < fuel ->
  send_cmd fuel cmd io
  = Some (Raise (RuntimeError (error_text code message)),
          mkIO d2 (sent io ++ cmd :: poll_cmds (S (length pre)))
               (stdout io ++ pre ++ [resp])).
Proof.
  intros Hcmd Hp Hz Hrec Hcode Hfuel.
  apply polls_app in Hp as (dm & Hpre & Hlast).
  inversion Hlast as [|? c dc n ? dn ? ? Hc Hi Hn Hr Hnil]; subst.
  inversion Hnil; subst.
  rewrite send_cmd_unfold, Hcmd.
  replace fuel with (length pre + S (fuel - length pre - 1)) by lia.
  rewrite (send_cmd_loop_polls _ _ _ Hpre Hz).
  rewrite (send_cmd_loop_nonzero_record _ _ c dc n resp d2 code message)
    by assumption.
  cbn [sent stdout]. do 3 f_equal.
  - rewrite <- !app_assoc. cbn [app]. f_equal. f_equal.
    clear. induction (length pre) as [|k IH]; [reflexivity|].
    cbn [poll_cmds app] in *. now rewrite IH.
  - now rewrite <- app_assoc.
Qed.

Lemma zero_record_wire (r : Z * string) : fst r = 0%Z -> zero_record (record_wire r).
Proof.
  destruct r as [c m]. cbn [fst]. intros ->.
  exists (before_comma m). apply record_fields_record_line.
Qed.

(** C1, as the code has it.  When the error queue hands out records
    [(c1,m1), ..., (cN,mN)], each on the wire as [<ci>,<mi>], and
    [(code, message)] is the first of them with a nonzero code,
    [send_cmd] raises the error whose text is [Error <code>: ] followed
    by the message up to its first comma: by the whole message when it
    has no comma.  The records with code 0 before it are read through
    (and printed), the reply of the command is not returned, and what
    the transport holds after that record plays no part. *)
Theorem send_cmd_raises_first_nonzero fuel cmd (io : IO T) ans d1
    (pre : list (Z * string)) code message d2 :
  comm_send_cmd cmd (dev io) = (ans, d1) ->
  polls d1 (map record_wire pre ++ [record_line code message]) d2 ->
  Forall (fun r => fst r = 0%Z) pre ->
  code <> 0%Z ->
  length pre < fuel ->
  send_cmd fuel cmd io
  = Some (Raise (RuntimeError
                   ("Error " ++ fmt_d code ++ ": " ++ before_comma message)),
          mkIO d2 (sent io ++ cmd :: poll_cmds (S (length pre)))
               (stdout io ++ map record_wire pre ++ [record_line code message]))
  /\
  (comma_free message = true ->
   send_cmd fuel cmd io
   = Some (Raise (RuntimeError ("Error " ++ fmt_d code ++ ": " ++ message)),
           mkIO d2 (sent io ++ cmd :: poll_cmds (S (length pre)))
                (stdout io ++ map record_wire pre ++ [record_line code message]))).
Proof.
  intros Hcmd Hp Hz Hcode Hfuel.
  assert (Hrun :
    send_cmd fuel cmd io
    = Some (Raise (RuntimeError
                     ("Error " ++ fmt_d code ++ ": " ++ before_comma message)),
            mkIO d2 (sent io ++ cmd :: poll_cmds (S (length pre)))
                 (stdout io ++ map record_wire pre ++ [record_line code message]))).
  { rewrite <- (length_map record_wire pre).
    apply (send_cmd_raises_on_fields fuel cmd io ans d1 (map record_wire pre)
             (record_line code message) d2 code (before_comma message));
      try assumption.
    - apply Forall_map. revert Hz. apply Forall_impl.
      intros r Hr. now apply zero_record_wire.
    - apply record_fields_record_line.
    - now rewrite length_map. }
  split; [exact Hrun|].
  intros Hfree. rewrite Hrun. now rewrite (before_comma_comma_free _ Hfree).
Qed.

(** C2. [send_cmd] leaves its drain loop normally exactly when the
    error-count query answers 0: it returns if and only if, after some
    number of records with code 0, each read after a count query that
    answered nonzero, the count query answers 0.  The number of records
    is arbitrary, the count is queried again after each of them, and
    the transport sees nothing after the count query that answered 0. *)
Theorem send_cmd_returns_iff_count_zero cmd (io : IO T) ans io' :
  (exists fuel, send_cmd fuel cmd io = Some (Return ans, io')) <->
  (exists d1 rs d2 c d3,
      comm_send_cmd cmd (dev io) = (ans, d1) /\
      polls d1 rs d2 /\ Forall zero_record rs /\
      comm_send_cmd COUN d2 = (c, d3) /\ py_int c = Some 0%Z /\
      io' = mkIO d3 (sent io ++ cmd :: poll_cmds (length rs) ++ [COUN])
                 (stdout io ++ rs)).
Proof.
  split.
  - intros [fuel H]. rewrite send_cmd_unfold in H.
    destruct (comm_send_cmd cmd (dev io)) as [a d1] eqn:Hcmd.
    destruct (send_cmd_loop fuel _) as [[[[] | e] io1]|] eqn:E; try discriminate.
    injection H as <- <-.
    apply send_cmd_loop_returns_inv in E
      as (rs & d2 & c & d3 & Hp & Hz & Hc & Hi & ->).
    cbn [dev sent stdout] in *.
    exists d1, rs, d2, c, d3. repeat split; auto.
    now rewrite <- app_assoc.
  - intros (d1 & rs & d2 & c & d3 & Hcmd & Hp & Hz & Hc & Hi & ->).
    exists (length rs + 1). rewrite send_cmd_unfold, Hcmd.
    rewrite (send_cmd_loop_polls _ _ _ Hp Hz).
    rewrite (send_cmd_loop_count_zero _ _ c d3) by assumption.
    cbn [sent stdout]. now rewrite <- !app_assoc.
Qed.

(** C9, as the code has it.  A call of [send_cmd] that reads N error
    records makes at least 2 and at most 2N+2 round trips: one for the
    command, one count query before each record, one read per record,
    and a last count query.  It makes exactly 2N+2 when it returns and
    exactly 2N+1 when it raises the controller error. *)
Theorem send_cmd_round_trips fuel cmd (io : IO T) out io' :
  send_cmd fuel cmd io = Some (out, io') ->
  let log := new_sent io io' in
  let N := records_read log in
  sent io' = sent io ++ log /\
  2 <= round_trips log <= 2 * N + 2 /\
  (forall ans, out = Return ans -> round_trips log = 2 * N + 2) /\
  (forall msg, out = Raise (RuntimeError msg) -> round_trips log = 2 * N + 1).
Proof.
  intros H. rewrite send_cmd_unfold in H.
  destruct (comm_send_cmd cmd (dev io)) as [a d1].
  destruct (send_cmd_loop fuel _) as [[r io1]|] eqn:E; [|discriminate].
  apply send_cmd_loop_log in E as [n [[Hs Ho]|[Hs Ho]]]; cbn [sent] in Hs.
  - assert (Hlog : sent io' = sent io ++ cmd :: poll_cmds n ++ [COUN]).
    { destruct r; injection H as <- <-; rewrite Hs; now rewrite <- app_assoc. }
    cbn zeta. rewrite (new_sent_app _ _ _ Hlog).
    unfold records_read, round_trips. cbn [tl length].
    rewrite count_occ_poll_cmds, length_app, length_poll_cmds. cbn.
    repeat split; auto; try lia.
    intros msg Hout. subst out. destruct r as [[]|e]; [discriminate|].
    injection H as ->. now elim (Ho msg).
  - assert (Hlog : sent io' = sent io ++ cmd :: poll_cmds (S n)).
    { destruct r; injection H as <- <-; rewrite Hs; now rewrite <- app_assoc. }
    cbn zeta. rewrite (new_sent_app _ _ _ Hlog).
    unfold records_read, round_trips. cbn [tl length].
    rewrite count_occ_poll_cmds_only, length_poll_cmds.
    repeat split; auto; try lia.
    intros ans Hout. subst out.
    destruct r as [[]|e]; [now elim Ho | discriminate].
Qed.

(** C6, as the code has it.  The message of the error raised for a
    failed command is ['Error <code>: <text>']: it contains the numeric
    code of the record in decimal and the second comma-separated field
    of the reply, that is the text sent by the controller up to its
    first comma; the whole text when it has no comma. *)
Theorem error_message_code_and_text fuel cmd (io : IO T) msg io' :
  send_cmd fuel cmd io = Some (Raise (RuntimeError msg), io') ->
  exists resp code text,
    last (stdout io') EmptyString = resp /\
    record_fields resp = Some (code, text) /\ code <> 0%Z /\
    msg = error_text code text /\
    contains (fmt_d code) msg = true /\
    contains text msg = true /\
    (forall code' message,
        resp = record_line code' message ->
        code = code' /\ text = before_comma message /\
        (comma_free message = true -> contains message msg = true)).
Proof.
  intros H. rewrite send_cmd_unfold in H.
  destruct (comm_send_cmd cmd (dev io)) as [a d1].
  destruct (send_cmd_loop fuel _) as [[[[] | e] io1]|] eqn:E; try discriminate.
  injection H as -> <-.
  apply send_cmd_loop_runtime_error_inv in E as (resp & code & text & Hl & Hf & Hc & ->).
  assert (Htext : forall t, contains t (error_text code t) = true).
  { intros t. unfold error_text. rewrite !string_app_assoc. apply contains_suffix. }
  exists resp, code, text.
  split; [exact Hl|]. split; [exact Hf|]. split; [exact Hc|].
  split; [reflexivity|]. split; [|split; [apply Htext|]].
  - unfold error_text. apply (contains_app (fmt_d code) "Error " (": " ++ text)).
  - intros code' message Hresp.
    rewrite Hresp, record_fields_record_line in Hf. injection Hf as <- <-.
    split; [reflexivity|]. split; [reflexivity|].
    intros Hfree. rewrite (before_comma_comma_free _ Hfree). apply Htext.
Qed.

(** ** Enumeration of the axes *)

Lemma pop_forever_empties n : forall l : list Axis,
  length l = n ->
  pop_forever (S n) l = Some (IndexError "pop from empty list", []).
Proof.
  induction n as [|n IH]; intros l Hl.
  - destruct l; [reflexivity | discriminate].
  - cbn [pop_forever]. unfold list_pop.
    destruct (rev l) as [|a r] eqn:E.
    + apply (f_equal (@length _)) in E. rewrite length_rev, Hl in E. discriminate.
    + apply IH. apply (f_equal (@length _)) in E.
      rewrite length_rev, Hl in E. cbn in E. rewrite length_rev. lia.
Qed.

(** Lines 180-184 leave the controller without axes. *)
Lemma pop_all_clears (self : Ctrl T) :
  pop_all self = Some (Return tt, mkCtrl (_comm self) []).
Proof.
  unfold pop_all. now rewrite (pop_forever_empties _ _ eq_refl).
Qed.

Lemma py_range_zrange C : py_range C = zrange 0 (Z.to_nat C).
Proof.
  unfold py_range. change 0%Z with (Z.of_nat 0).
  generalize 0 at 1 2. induction (Z.to_nat C) as [|n IH]; intros a.
  - reflexivity.
  - cbn [seq map zrange]. rewrite IH. do 2 f_equal. lia.
Qed.

Lemma zrange_app k n m :
  zrange k (n + m) = zrange k n ++ zrange (k + Z.of_nat n) m.
Proof.
  revert k. induction n as [|n IH]; intros k.
  - cbn. now rewrite Z.add_0_r.
  - cbn [Nat.add zrange app]. rewrite IH. do 3 f_equal. lia.
Qed.

Lemma length_zrange k n : length (zrange k n) = n.
Proof. revert k. induction n; intros; cbn; auto. Qed.

Lemma py_in_known_codes code :
  py_in code known_codes
  = py_in code ["SL"] || py_in code ["SR"]
    || py_in code ["CUSTOM0"; "CUSTOM1"; "CUSTOM2"; "CUSTOM3"].
Proof.
  unfold py_in, known_codes. cbn [existsb].
  rewrite !orb_false_r, <- !orb_assoc. reflexivity.
Qed.

(** One round of the enumeration loop on a channel with a known code. *)
Lemma create_axes_loop_known fuel k rest (io io1 : IO T) its ans :
  send_cmd fuel (chan_name_cmd k) io = Some (Return ans, io1) ->
  known_reply ans ->
  create_axes_loop fuel (k :: rest) (mkCtrl io its)
  = create_axes_loop fuel rest (mkCtrl io1 (its ++ [SmaractBaseAxis k])).
Proof.
  intros Hs (code & Hc & Hk).
  cbn [create_axes_loop]. unfold bind at 1. unfold on_comm. cbn [_comm items].
  rewrite Hs. unfold bind at 1. rewrite Hc. cbn [lift_res]. unfold ret at 1.
  rewrite py_in_known_codes in Hk.
  destruct (py_in code ["SL"]); [reflexivity|].
  destruct (py_in code ["SR"]); [reflexivity|].
  cbn [orb] in Hk. rewrite Hk. reflexivity.
Qed.


(** The enumeration loop over channels that all answer with a known
    code: one axis per channel is appended, in the order of the
    channels. *)
Lemma create_axes_loop_answers (io : IO T) k answers io' :
  channel_answers io k answers io' ->
  Forall known_reply answers ->
  exists fuel0, forall fuel, fuel0 <= fuel -> forall tail its,
    create_axes_loop fuel (zrange k (length answers) ++ tail) (mkCtrl io its)
    = create_axes_loop fuel tail
        (mkCtrl io' (its ++ map SmaractBaseAxis (zrange k (length answers)))).
Proof.
  induction 1 as [io k|io k ans io1 rest io' [f Hf] Hrest IH]; intros Hk.
  - exists 0. intros fuel _ tail its. cbn. now rewrite app_nil_r.
  - inversion Hk as [|? ? Hk1 Hk2]; subst.
    destruct (IH Hk2) as [f0 Hf0].
    exists (Nat.max f f0). intros fuel Hle tail its.
    cbn [length zrange app map].
    rewrite (create_axes_loop_known fuel k _ io io1 its ans);
      [|eapply send_cmd_mono; [exact Hf | lia] | exact Hk1].
    rewrite Hf0 by lia. now rewrite <- app_assoc.
Qed.

Lemma nchannels_returns fuel (self : Ctrl T) ansC C io1 :
  send_cmd fuel ":DEV:NOCH?" (_comm self) = Some (Return ansC, io1) ->
  py_int ansC = Some C ->
  nchannels fuel self = Some (Return C, mkCtrl io1 (items self)).
Proof.
  intros Hs Hi. unfold nchannels, bind, on_comm, int. rewrite Hs, Hi. reflexivity.
Qed.

(** C5. When the controller reports C channels and every channel
    answers with a known sensor code, the enumeration succeeds and the
    controller holds exactly C axes, with the channel numbers 0, 1, ...,
    C-1 in this order, whatever axes it held before. *)
Theorem create_axes_all_known (self : Ctrl T) ansC C io1 answers io' :
  returns ":DEV:NOCH?" (_comm self) ansC io1 ->
  py_int ansC = Some C ->
  channel_answers io1 0 answers io' ->
  length answers = Z.to_nat C ->
  Forall known_reply answers ->
  exists fuel0, forall fuel, fuel0 <= fuel ->
    exists self',
      _create_axes fuel self = Some (Return tt, self') /\
      _comm self' = io' /\
      map _axis_nr (items self') = py_range C /\
      length (items self') = Z.to_nat C.
Proof.
  intros [f Hf] Hi Hch Hlen Hk.
  destruct (create_axes_loop_answers _ _ _ _ Hch Hk) as [f0 Hf0].
  exists (Nat.max f f0). intros fuel Hle.
  exists (mkCtrl io' (map SmaractBaseAxis (py_range C))).
  split; [|split; [|split]].
  - unfold _create_axes. unfold bind at 1. rewrite pop_all_clears.
    unfold bind at 1.
    rewrite (nchannels_returns fuel _ ansC C io1);
      [|eapply send_cmd_mono; [exact Hf | lia] | exact Hi].
    cbn [items]. rewrite py_range_zrange, <- Hlen.
    rewrite <- (app_nil_r (zrange 0 (length answers))) at 1.
    rewrite Hf0 by lia. reflexivity.
  - reflexivity.
  - cbn [items]. rewrite map_map. cbn [_axis_nr]. now rewrite map_id.
  - cbn [items]. now rewrite length_map, py_range_zrange, length_zrange.
Qed.


(** ** The axis: [_send_cmd] and the safe-direction setter *)

(** The exceptions of the drain loop: never the [ValueError] of a
    setter. *)
Lemma send_cmd_loop_exn fuel : forall (io io' : IO T) e,
  send_cmd_loop fuel io = Some (Raise e, io') ->
  forall m, e <> ValueError m.
Proof.
  induction fuel as [|fuel IH]; intros io io' e H; [discriminate|].
  rewrite send_cmd_loop_step in H.
  destruct (comm_send_cmd COUN (dev io)) as [c d1].
  destruct (py_int c) as [err|]; [|injection H as <- _; discriminate].
  destruct (err =? 0)%Z; [discriminate|].
  destruct (comm_send_cmd NEXT d1) as [resp d2]. cbn zeta in H.
  destruct (py_rsplit "," resp) as [|f0 fs]; [injection H as <- _; discriminate|].
  destruct (py_int f0) as [code|]; [|injection H as <- _; discriminate].
  destruct fs as [|msg fs]; [injection H as <- _; discriminate|].
  destruct (code =? 0)%Z; [|injection H as <- _; discriminate].
  exact (IH _ _ _ H).
Qed.

(** The requests of any finished call of [send_cmd]: the command, then
    only queries of the drain loop. *)
Lemma send_cmd_log fuel cmd (io io' : IO T) out :
  send_cmd fuel cmd io = Some (out, io') ->
  exists rest, sent io' = sent io ++ cmd :: rest /\ Forall drain_query rest.
Proof.
  intros H. rewrite send_cmd_unfold in H.
  destruct (comm_send_cmd cmd (dev io)) as [a d1].
  destruct (send_cmd_loop fuel _) as [[r io1]|] eqn:E; [|discriminate].
  assert (Hio : io1 = io') by (destruct r; now injection H). subst io1.
  assert (Hq : forall n, Forall drain_query (poll_cmds n)).
  { induction n as [|n IHn]; cbn [poll_cmds]; [constructor|].
    constructor; [now left|]. constructor; [now right | exact IHn]. }
  apply send_cmd_loop_log in E as [n [[Hs _]|[Hs _]]]; cbn [sent] in Hs;
    rewrite Hs, <- app_assoc; cbn [app]; eexists; split; try reflexivity.
  - apply Forall_app. split; [apply Hq|].
    constructor; [now left | constructor].
  - apply Hq.
Qed.

Lemma py_lower_eqb_nocase s t :
  py_lower t = t -> String.eqb (py_lower s) t = eq_nocase s t.
Proof.
  revert t. induction s as [|a s IH]; intros [|b t] Ht; try reflexivity.
  cbn [py_lower] in *. injection Ht as Hb Ht.
  cbn [String.eqb eq_nocase]. rewrite Hb, (IH _ Ht).
  destruct (Ascii.eqb (lower_ascii a) b) eqn:E.
  - reflexivity.
  - reflexivity.
Qed.

(** A template without braces is sent as it is. *)
Lemma _send_cmd_literal fuel self str_cmd pars :
  brace_free str_cmd = true ->
  _send_cmd fuel self str_cmd pars = send_cmd fuel str_cmd.
Proof.
  intros H. unfold _send_cmd, py_format.
  now rewrite (format_from_brace_free _ _ _ H).
Qed.

Lemma safe_direction_setter_accepted fuel self direction :
  eq_nocase direction "forward" = true \/ eq_nocase direction "backward" = true ->
  safe_direction_setter fuel self direction
  = (send_cmd fuel "SSD" ;;; ret tt).
Proof.
  intros H. unfold safe_direction_setter.
  rewrite !py_lower_eqb_nocase by reflexivity.
  destruct (eq_nocase direction "forward").
  - unfold bind at 1, ret at 1. now rewrite _send_cmd_literal.
  - destruct H as [H|H]; [discriminate|]. rewrite H.
    unfold bind at 1, ret at 1. now rewrite _send_cmd_literal.
Qed.

(** C7. A direction that is neither ['forward'] nor ['backward'], case
    ignored, makes the setter raise [ValueError] with the state
    untouched: nothing is handed to the transport.  For the two
    recognized directions the setter hands the command to [send_cmd];
    in every finished run the transport has seen that command, and the
    setter's own [ValueError] is not raised. *)
Theorem safe_direction_setter_validates fuel self direction (io : IO T) :
  (eq_nocase direction "forward" = false ->
   eq_nocase direction "backward" = false ->
   safe_direction_setter fuel self direction io
   = Some (Raise (ValueError "Read the help"), io))
  /\
  (eq_nocase direction "forward" = true \/
   eq_nocase direction "backward" = true ->
   safe_direction_setter fuel self direction io
   = (send_cmd fuel "SSD" ;;; ret tt) io /\
   forall out io',
     safe_direction_setter fuel self direction io = Some (out, io') ->
     (exists rest, sent io' = sent io ++ "SSD" :: rest) /\
     (forall m, out <> Raise (ValueError m))).
Proof.
  split.
  - intros Hf Hb. unfold safe_direction_setter.
    rewrite !py_lower_eqb_nocase by reflexivity.
    now rewrite Hf, Hb.
  - intros H. rewrite (safe_direction_setter_accepted _ _ _ H).
    split; [reflexivity|].
    intros out io' Hrun. unfold bind in Hrun.
    destruct (send_cmd fuel "SSD" io) as [[r io1]|] eqn:E; [|discriminate].
    assert (Hio : io1 = io') by (destruct r; now injection Hrun). subst io1.
    split.
    + apply send_cmd_log in E as (rest & Hs & _). now exists rest.
    + intros m Hm. subst out. destruct r as [a|e]; [discriminate|].
      injection Hrun as ->.
      rewrite send_cmd_unfold in E.
      destruct (comm_send_cmd "SSD" (dev io)) as [a d1].
      destruct (send_cmd_loop fuel _) as [[[[]|e'] io2]|] eqn:El; try discriminate.
      injection E as -> _.
      now apply (send_cmd_loop_exn _ _ _ _ El m).
Qed.

(** C10. [_send_cmd] gives only the axis number to [format] and does
    not look at its extra parameters; so for an accepted direction the
    setter is [send_cmd] on the literal command [SSD], whichever
    direction was chosen: the first thing it does is hand [SSD], with
    nothing appended, to the transport, and what follows is the drain
    loop of [send_cmd], so that in every finished run the transport has
    seen [SSD] followed only by queries of the error queue. *)
Theorem safe_direction_value_not_sent fuel self direction (io : IO T) :
  (forall str_cmd pars pars',
      _send_cmd fuel self str_cmd pars = _send_cmd fuel self str_cmd pars')
  /\
  (eq_nocase direction "forward" = true \/
   eq_nocase direction "backward" = true ->
   safe_direction_setter fuel self direction io
   = (send_cmd fuel "SSD" ;;; ret tt) io /\
   (exists reply d,
       comm_send_cmd "SSD" (dev io) = (reply, d) /\
       safe_direction_setter fuel self direction io
       = (send_cmd_loop fuel ;;; ret tt)
           (mkIO d (sent io ++ ["SSD"]) (stdout io))) /\
   safe_direction_setter fuel self direction io
   = safe_direction_setter fuel self "forward" io /\
   safe_direction_setter fuel self direction io
   = safe_direction_setter fuel self "backward" io /\
   forall out io',
     safe_direction_setter fuel self direction io = Some (out, io') ->
     exists rest,
       new_sent io io' = "SSD" :: rest /\ Forall drain_query rest).
Proof.
  split; [reflexivity|].
  intros H. rewrite (safe_direction_setter_accepted _ _ _ H).
  rewrite !safe_direction_setter_accepted by (cbn; auto).
  split; [reflexivity|]. split; [|split; [reflexivity|split; [reflexivity|]]].
  - destruct (comm_send_cmd "SSD" (dev io)) as [reply d] eqn:Hc.
    exists reply, d. split; [reflexivity|].
    unfold bind. rewrite send_cmd_unfold, Hc.
    now destruct (send_cmd_loop fuel _) as [[[[]|e] io1]|].
  - intros out io' Hrun. unfold bind in Hrun.
    destruct (send_cmd fuel "SSD" io) as [[r io1]|] eqn:E; [|discriminate].
    assert (Hio : io1 = io') by (destruct r; now injection Hrun). subst io1.
    apply send_cmd_log in E as (rest & Hs & Hq).
    exists rest. split; [|exact Hq]. now apply new_sent_app.
Qed.

(** C8. Formatting a template that has the [{:d}] placeholder with an
    axis number N in [0, 63], as [_send_cmd] does, writes N in decimal
    digits at the placeholder, and reading the number back from the
    command gives N. *)
Theorem axis_nr_round_trip fuel before after N :
  brace_free before = true ->
  brace_free after = true ->
  (0 <= N <= 63)%Z ->
  exists cmd,
    py_format (template before after) N = Some (Return cmd) /\
    (forall pars (io : IO T),
        _send_cmd fuel (SmaractBaseAxis N) (template before after) pars io
        = send_cmd fuel cmd io) /\
    cmd = (before ++ fmt_d N ++ after)%string /\
    all_chars is_digit (fmt_d N) = true /\
    parse_axis_nr before after cmd = Some N.
Proof.
  intros Hb Ha [HN _].
  exists (before ++ fmt_d N ++ after)%string. repeat split.
  - now apply py_format_template.
  - intros pars io. unfold _send_cmd. cbn [_axis_nr].
    now rewrite py_format_template.
  - now apply fmt_d_nonneg_digits.
  - unfold parse_axis_nr. rewrite strip_prefix_app, strip_suffix_app.
    apply py_int_fmt_d.
Qed.

End ClientFacts.

(* ===================================================================== *)
(** * Further facts: malformed replies, queues that never empty *)
(* ===================================================================== *)

Section DrainFacts.

Context {T : Type} {transport : Transport T}.

Lemma poll_cmds_snoc n : poll_cmds n ++ [COUN; NEXT] = poll_cmds (S n).
Proof.
  induction n as [|n IH]; [reflexivity|].
  cbn [poll_cmds app] in *. now rewrite IH.
Qed.

(** An error count that does not read as an integer, met after any
    number of records with code 0, ends [send_cmd] by the [ValueError]
    of [int]: the reply of the command is lost. *)
Theorem send_cmd_count_not_integer fuel cmd (io : IO T) ans d1 pre d2 c d3 :
  comm_send_cmd cmd (dev io) = (ans, d1) ->
  polls d1 pre d2 ->
  Forall zero_record pre ->
  comm_send_cmd COUN d2 = (c, d3) ->
  py_int c = None ->
  length pre < fuel ->
  send_cmd fuel cmd io
  = Some (Raise (ValueError_int c),
          mkIO d3 (sent io ++ cmd :: poll_cmds (length pre) ++ [COUN])
               (stdout io ++ pre)).
Proof.
  intros Hcmd Hp Hz Hc Hi Hfuel.
  rewrite send_cmd_unfold, Hcmd.
  replace fuel with (length pre + S (fuel - length pre - 1)) by lia.
  rewrite (send_cmd_loop_polls _ _ _ Hp Hz).
  rewrite send_cmd_loop_step. cbn [dev sent stdout]. rewrite Hc, Hi.
  now rewrite <- !app_assoc.
Qed.

(** A next-error reply without a comma whose text reads as an integer
    ends [send_cmd] by [IndexError], whatever the integer is: also for
    the code 0. *)
Theorem send_cmd_record_without_comma fuel cmd (io : IO T) ans d1 pre resp d2
    code :
  comm_send_cmd cmd (dev io) = (ans, d1) ->
  polls d1 (pre ++ [resp]) d2 ->
  Forall zero_record pre ->
  comma_free resp = true ->
  py_int resp = Some code ->
  length pre < fuel ->
  send_cmd fuel cmd io
  = Some (Raise (IndexError "list index out of range"),
          mkIO d2 (sent io ++ cmd :: poll_cmds (S (length pre)))
               (stdout io ++ pre ++ [resp])).
Proof.
  intros Hcmd Hp Hz Hfree Hi Hfuel.
  apply polls_app in Hp as (dm & Hpre & Hlast).
  inversion Hlast as [|? c dc n ? dn ? ? Hc Hn Hne Hr Hnil]; subst.
  inversion Hnil; subst.
  rewrite send_cmd_unfold, Hcmd.
  replace fuel with (length pre + S (fuel - length pre - 1)) by lia.
  rewrite (send_cmd_loop_polls _ _ _ Hpre Hz).
  rewrite send_cmd_loop_step. cbn [dev sent stdout]. rewrite Hc, Hn.
  apply Z.eqb_neq in Hne. rewrite Hne, Hr. cbn zeta.
  rewrite (py_rsplit_no_sep "," resp Hfree), Hi.
  rewrite <- !app_assoc. cbn [app]. now rewrite poll_cmds_snoc.
Qed.

(** On a queue that never empties the drain loop gives no verdict,
    whatever the fuel. *)
Lemma send_cmd_loop_never_empties (P : T -> Prop) :
  never_empties P ->
  forall fuel (io : IO T), P (dev io) -> send_cmd_loop fuel io = None.
Proof.
  intros HP. induction fuel as [|fuel IH]; intros io Hd; [reflexivity|].
  destruct (HP _ Hd) as (c & d1 & n & resp & d2 & Hc & Hi & Hn & Hr & Hz & Hd2).
  rewrite (send_cmd_loop_zero_record _ _ c d1 n resp d2) by assumption.
  now apply IH.
Qed.

(** When the error queue never empties (nonzero count, records with
    code 0, for ever), no amount of fuel makes [send_cmd] return or
    raise: the call does not end. *)
Theorem send_cmd_never_ends (P : T -> Prop) fuel cmd (io : IO T) ans d1 :
  never_empties P ->
  comm_send_cmd cmd (dev io) = (ans, d1) ->
  P d1 ->
  send_cmd fuel cmd io = None.
Proof.
  intros HP Hcmd Hd. rewrite send_cmd_unfold, Hcmd.
  now rewrite (send_cmd_loop_never_empties P HP).
Qed.

Lemma replay_next_count : forall (log : list string) (d : T),
  length (map snd (filter (fun p => String.eqb (fst p) NEXT) (replay d log)))
  = count_occ string_dec log NEXT.
Proof.
  induction log as [|cmd log IH]; intros d; [reflexivity|].
  cbn [replay]. destruct (comm_send_cmd cmd d) as [reply d'].
  cbn [filter fst count_occ].
  destruct (string_dec cmd NEXT) as [->|Hne].
  - rewrite String.eqb_refl. cbn [map length]. now rewrite IH.
  - apply String.eqb_neq in Hne. rewrite Hne. apply IH.
Qed.

(** The lines a finished run of the loop has printed are the replies of
    the transport to its next-error queries, in their order. *)
Lemma send_cmd_loop_prints fuel : forall (io io' : IO T) out,
  send_cmd_loop fuel io = Some (out, io') ->
  exists log,
    sent io' = sent io ++ log /\
    stdout io'
    = stdout io
      ++ map snd (filter (fun p => String.eqb (fst p) NEXT)
                    (replay (dev io) log)).
Proof.
  induction fuel as [|fuel IH]; intros io io' out H; [discriminate|].
  rewrite send_cmd_loop_step in H.
  destruct (comm_send_cmd COUN (dev io)) as [c d1] eqn:Hc.
  assert (H0 : forall r, Some (r, mkIO d1 (sent io ++ [COUN]) (stdout io))
                         = Some (out, io') ->
               exists log,
                 sent io' = sent io ++ log /\
                 stdout io'
                 = stdout io
                   ++ map snd (filter (fun p => String.eqb (fst p) NEXT)
                                 (replay (dev io) log))).
  { intros r [= <- <-]. exists [COUN]. cbn [sent stdout replay].
    rewrite Hc. cbn. now rewrite app_nil_r. }
  destruct (py_int c) as [err|]; [|now apply H0 in H].
  destruct (err =? 0)%Z; [now apply H0 in H|].
  destruct (comm_send_cmd NEXT d1) as [resp d2] eqn:Hr. cbn zeta in H.
  assert (H1 : forall r,
             Some (r, mkIO d2 (sent io ++ [COUN; NEXT]) (stdout io ++ [resp]))
             = Some (out, io') ->
             exists log,
               sent io' = sent io ++ log /\
               stdout io'
               = stdout io
                 ++ map snd (filter (fun p => String.eqb (fst p) NEXT)
                               (replay (dev io) log))).
  { intros r [= <- <-]. exists [COUN; NEXT]. cbn [sent stdout replay].
    rewrite Hc, Hr. now cbn. }
  destruct (py_rsplit "," resp) as [|f0 fs]; [now apply H1 in H|].
  destruct (py_int f0) as [code|]; [|now apply H1 in H].
  destruct fs as [|msg fs]; [now apply H1 in H|].
  destruct (code =? 0)%Z; [|now apply H1 in H].
  destruct (IH _ _ _ H) as (log & Hs & Ho). cbn [dev sent stdout] in *.
  exists (COUN :: NEXT :: log). cbn [replay]. rewrite Hc, Hr.
  rewrite Hs, Ho, <- !app_assoc. split; [reflexivity|]. now cbn.
Qed.

(** Every finished call of [send_cmd] has printed exactly the replies of
    the transport to its next-error queries, in the order of the
    queries, and nothing else: as many lines as records read. *)
Theorem send_cmd_prints_records_read fuel cmd (io : IO T) out io' :
  send_cmd fuel cmd io = Some (out, io') ->
  stdout io' = stdout io ++ next_error_replies (dev io) (new_sent io io') /\
  length (next_error_replies (dev io) (new_sent io io'))
  = records_read (new_sent io io').
Proof.
  intros H. rewrite send_cmd_unfold in H.
  destruct (comm_send_cmd cmd (dev io)) as [a d1] eqn:Hcmd.
  destruct (send_cmd_loop fuel _) as [[r io1]|] eqn:E; [|discriminate].
  assert (Hio : io1 = io') by (destruct r; now injection H). subst io1.
  apply send_cmd_loop_prints in E as (log & Hs & Ho).
  cbn [dev sent stdout] in *.
  rewrite <- app_assoc in Hs. cbn [app] in Hs.
  rewrite (new_sent_app _ _ _ Hs).
  unfold next_error_replies, records_read. cbn [replay]. rewrite Hcmd.
  cbn [tl]. split; [exact Ho | apply replay_next_count].
Qed.

End DrainFacts.

(* ===================================================================== *)
(** * Further facts on the enumeration *)
(* ===================================================================== *)

Section EnumerationFacts.

Context {T : Type} {transport : Transport T}.

(** One round of the enumeration loop, written out. *)
Lemma create_axes_loop_step fuel k rest (self : Ctrl T) :
  create_axes_loop fuel (k :: rest) self =
  match send_cmd fuel (chan_name_cmd k) (_comm self) with
  | None => None
  | Some (Raise e, io1) => Some (Raise e, mkCtrl io1 (items self))
  | Some (Return ans, io1) =>
      match sensor_code_of ans with
      | Raise e => Some (Raise e, mkCtrl io1 (items self))
      | Return code =>
          if py_in code known_codes
          then create_axes_loop fuel rest
                 (mkCtrl io1 (items self ++ [SmaractBaseAxis k]))
          else Some (Raise (RuntimeError (no_axis_class_msg k code)),
                     mkCtrl io1 (items self))
      end
  end.
Proof.
  cbn [create_axes_loop]. unfold bind at 1. unfold on_comm.
  destruct (send_cmd fuel (chan_name_cmd k) (_comm self)) as [[[ans|e] io1]|];
    [|reflexivity|reflexivity].
  unfold bind at 1.
  destruct (sensor_code_of ans) as [code|e]; [|reflexivity].
  cbn [lift_res]. unfold ret at 1. rewrite py_in_known_codes.
  destruct (py_in code ["SL"]); [reflexivity|].
  destruct (py_in code ["SR"]); [reflexivity|].
  now destruct (py_in code ["CUSTOM0"; "CUSTOM1"; "CUSTOM2"; "CUSTOM3"]).
Qed.

(** Whatever way the loop ends, the axes appended are those of a prefix
    of the channel list, in its order; all of it when the loop
    returns. *)
Lemma create_axes_loop_prefix fuel : forall idxs (self self' : Ctrl T) out,
  create_axes_loop fuel idxs self = Some (out, self') ->
  exists done rest,
    idxs = done ++ rest /\
    items self' = items self ++ map SmaractBaseAxis done /\
    (out = Return tt -> rest = []).
Proof.
  induction idxs as [|k idxs IH]; intros self self' out H.
  - injection H as <- <-. exists [], []. cbn. now rewrite app_nil_r.
  - rewrite create_axes_loop_step in H.
    assert (Hstop : forall e io1,
               Some (Raise e, mkCtrl io1 (items self)) = Some (out, self') ->
               exists done rest,
                 k :: idxs = done ++ rest /\
                 items self' = items self ++ map SmaractBaseAxis done /\
                 (out = Return tt -> rest = [])).
    { intros e io1 [= <- <-]. exists [], (k :: idxs). cbn.
      rewrite app_nil_r. repeat split. discriminate. }
    destruct (send_cmd fuel (chan_name_cmd k) (_comm self))
      as [[[ans|e] io1]|]; [|now apply Hstop in H|discriminate].
    destruct (sensor_code_of ans) as [code|e]; [|now apply Hstop in H].
    destruct (py_in code known_codes); [|now apply Hstop in H].
    destruct (IH _ _ _ H) as (done & rest & -> & Hi & Hr). cbn [items] in Hi.
    exists (k :: done), rest. cbn [app map]. rewrite Hi, <- app_assoc.
    repeat split. exact Hr.
Qed.

Lemma zrange_prefix : forall n k done rest,
  zrange k n = done ++ rest -> done = zrange k (length done).
Proof.
  induction n as [|n IH]; intros k done rest H.
  - destruct done; [reflexivity | discriminate].
  - destruct done as [|a done]; [reflexivity|].
    cbn [zrange app length] in *. injection H as <- H.
    f_equal. now apply (IH _ _ rest).
Qed.

Lemma _create_axes_unfold fuel (self : Ctrl T) :
  _create_axes fuel self =
  match send_cmd fuel ":DEV:NOCH?" (_comm self) with
  | None => None
  | Some (Raise e, io1) => Some (Raise e, mkCtrl io1 [])
  | Some (Return ans, io1) =>
      match py_int ans with
      | None => Some (Raise (ValueError_int ans), mkCtrl io1 [])
      | Some n => create_axes_loop fuel (py_range n) (mkCtrl io1 [])
      end
  end.
Proof.
  unfold _create_axes. unfold bind at 1. rewrite pop_all_clears.
  unfold bind at 1. unfold nchannels, bind, on_comm, int. cbn [_comm items].
  destruct (send_cmd fuel ":DEV:NOCH?" (_comm self)) as [[[ans|e] io1]|];
    try reflexivity.
  now destruct (py_int ans).
Qed.

(** Whatever way [_create_axes] ends, by a return or by any exception,
    the controller then holds the axes numbered 0, 1, ..., k-1 for some
    k, in this order and without a gap; none of the axes it held before
    is left. *)
Theorem create_axes_holds_a_prefix fuel (self : Ctrl T) out self' :
  _create_axes fuel self = Some (out, self') ->
  exists k : nat,
    items self' = map SmaractBaseAxis (py_range (Z.of_nat k)) /\
    map _axis_nr (items self') = py_range (Z.of_nat k).
Proof.
  intros H.
  assert (Hk : forall l : list Z,
             map _axis_nr (map SmaractBaseAxis l) = l).
  { intros l. rewrite map_map. cbn [_axis_nr]. apply map_id. }
  rewrite _create_axes_unfold in H.
  assert (H0 : forall r io1, Some (r, mkCtrl io1 []) = Some (out, self') ->
               exists k : nat,
                 items self' = map SmaractBaseAxis (py_range (Z.of_nat k)) /\
                 map _axis_nr (items self') = py_range (Z.of_nat k)).
  { intros r io1 [= <- <-]. exists 0. split; reflexivity. }
  destruct (send_cmd fuel ":DEV:NOCH?" (_comm self)) as [[[ans|e] io1]|];
    [|now apply H0 in H|discriminate].
  destruct (py_int ans) as [n|]; [|now apply H0 in H].
  apply create_axes_loop_prefix in H as (done & rest & Hsplit & Hi & _).
  cbn [items app] in Hi. rewrite py_range_zrange in Hsplit.
  apply zrange_prefix in Hsplit.
  exists (length done).
  rewrite py_range_zrange, Nat2Z.id, <- Hsplit, Hi. split; [reflexivity|].
  apply Hk.
Qed.

(** When the channel-count query fails, by an error of the controller
    or by a reply that does not read as an integer, [_create_axes]
    raises that exception and the controller is left without axes:
    those it held are gone and no channel is queried. *)
Theorem create_axes_count_query_fails fuel (self : Ctrl T) r io1 e :
  send_cmd fuel ":DEV:NOCH?" (_comm self) = Some (r, io1) ->
  r = Raise e \/
  (exists ans, r = Return ans /\ py_int ans = None /\ e = ValueError_int ans) ->
  _create_axes fuel self = Some (Raise e, mkCtrl io1 []).
Proof.
  intros Hs Hr. rewrite _create_axes_unfold, Hs.
  destruct Hr as [-> | (ans & -> & Hi & ->)]; [reflexivity|].
  now rewrite Hi.
Qed.

(** When the controller reports a channel count that is zero or
    negative, [_create_axes] returns after the count query alone and
    the controller holds no axis. *)
Theorem create_axes_no_channels fuel (self : Ctrl T) ans C io1 :
  send_cmd fuel ":DEV:NOCH?" (_comm self) = Some (Return ans, io1) ->
  py_int ans = Some C ->
  (C <= 0)%Z ->
  _create_axes fuel self = Some (Return tt, mkCtrl io1 []).
Proof.
  intros Hs Hi HC. rewrite _create_axes_unfold, Hs, Hi.
  unfold py_range. replace (Z.to_nat C) with 0 by lia. reflexivity.
Qed.

(** When the channels before channel k answer with known codes and the
    query for channel k itself raises (an error of the controller, a
    malformed reply), [_create_axes] raises the same exception and the
    controller holds the axes of the channels 0, ..., k-1. *)
Theorem create_axes_channel_query_raises (self : Ctrl T) ansC C io1 answers iok
    e io' :
  returns ":DEV:NOCH?" (_comm self) ansC io1 ->
  py_int ansC = Some C ->
  channel_answers io1 0 answers iok ->
  Forall known_reply answers ->
  raises (chan_name_cmd (Z.of_nat (length answers))) iok e io' ->
  (Z.of_nat (length answers) < C)%Z ->
  exists fuel0, forall fuel, fuel0 <= fuel ->
    _create_axes fuel self
    = Some (Raise e,
            mkCtrl io' (map SmaractBaseAxis
                          (py_range (Z.of_nat (length answers))))).
Proof.
  intros [f Hf] Hi Hch Hk [fk Hfk] Hlt.
  destruct (create_axes_loop_answers _ _ _ _ Hch Hk) as [f0 Hf0].
  exists (Nat.max f (Nat.max f0 fk)). intros fuel Hle.
  rewrite _create_axes_unfold.
  rewrite (send_cmd_mono _ fuel _ _ _ Hf) by lia. rewrite Hi.
  rewrite !py_range_zrange, Nat2Z.id.
  replace (Z.to_nat C)
    with (length answers + S (Z.to_nat C - length answers - 1)) by lia.
  rewrite zrange_app. cbn [zrange]. rewrite Hf0 by lia.
  rewrite Z.add_0_l, create_axes_loop_step. cbn [_comm items app].
  now rewrite (send_cmd_mono _ fuel _ _ _ Hfk) by lia.
Qed.

Lemma py_replace_empty_removes old s :
  all_chars (fun c => negb (Ascii.eqb c old)) (py_replace_empty old s) = true.
Proof.
  induction s as [|c s IH]; cbn [py_replace_empty]; [reflexivity|].
  destruct (Ascii.eqb c old) eqn:E; [exact IH|].
  cbn [all_chars]. now rewrite E, IH.
Qed.

Lemma py_replace_empty_keeps p old s :
  all_chars p s = true -> all_chars p (py_replace_empty old s) = true.
Proof.
  induction s as [|c s IH]; cbn [py_replace_empty all_chars]; [reflexivity|].
  intros H. apply andb_true_iff in H as [Hc Hs].
  destruct (Ascii.eqb c old); [now apply IH|].
  cbn [all_chars]. now rewrite Hc, IH.
Qed.

(** The first field of a split has no separator, and keeps what holds
    of every character of the string. *)
Lemma py_rsplit_head sep s :
  exists h t,
    py_rsplit sep s = h :: t /\
    all_chars (fun c => negb (Ascii.eqb c sep)) h = true /\
    forall p, all_chars p s = true -> all_chars p h = true.
Proof.
  induction s as [|c s (h & t & Hs & Hsep & Hp)]; cbn [py_rsplit].
  - exists EmptyString, []. repeat split.
  - destruct (Ascii.eqb c sep) eqn:E.
    + exists EmptyString, (py_rsplit sep s). repeat split.
    + rewrite Hs. exists (String c h), t. cbn [all_chars].
      rewrite E, Hsep. repeat split.
      intros p H. apply andb_true_iff in H as [Hc Hrest].
      now rewrite Hc, (Hp p Hrest).
Qed.

(** The sensor code [_create_axes] takes from a reply is always defined
    and never has a dot, a double quote or a carriage return in it. *)
Theorem sensor_code_of_clean ans :
  exists code,
    sensor_code_of ans = Return code /\ all_chars code_char code = true.
Proof.
  unfold sensor_code_of.
  set (s := py_replace_empty cr (py_replace_empty dquote ans)).
  destruct (py_rsplit_head "." s) as (h & t & Hs & Hdot & Hp).
  exists h. rewrite Hs. split; [reflexivity|].
  assert (Hq : all_chars (fun c => negb (Ascii.eqb c dquote)) h = true).
  { apply Hp. apply py_replace_empty_keeps, py_replace_empty_removes. }
  assert (Hc : all_chars (fun c => negb (Ascii.eqb c cr)) h = true).
  { apply Hp. apply py_replace_empty_removes. }
  clear - Hdot Hq Hc. induction h as [|c h IH]; [reflexivity|].
  cbn [all_chars] in *.
  apply andb_true_iff in Hdot as [D1 D2]. apply andb_true_iff in Hq as [Q1 Q2].
  apply andb_true_iff in Hc as [C1 C2].
  unfold code_char at 1. now rewrite D1, Q1, C1, IH.
Qed.

End EnumerationFacts.

(* ===================================================================== *)
(** * Further facts on the axis and controller methods *)
(* ===================================================================== *)

Section MethodFacts.

Context {T : Type} {transport : Transport T}.

Lemma string_app_nil_r (s : string) : (s ++ "")%string = s.
Proof. induction s as [|c s IH]; simpl; [reflexivity | now rewrite IH]. Qed.

Lemma fmt_d_inj n m : fmt_d n = fmt_d m -> n = m.
Proof.
  intros H. apply (f_equal py_int) in H.
  rewrite !py_int_fmt_d in H. now injection H.
Qed.

Lemma fmt_d_chars n :
  all_chars (fun c => is_digit c || Ascii.eqb c "-") (fmt_d n) = true.
Proof.
  assert (Hd : forall d,
             all_chars (fun c => is_digit c || Ascii.eqb c "-")
               (NilZero.string_of_uint d) = true).
  { intros d. eapply all_chars_weaken; [|apply nilzero_string_of_uint_digits].
    intros c Hc. now rewrite Hc. }
  unfold fmt_d. destruct n as [|p|p]; simpl Z.to_int; simpl NilZero.string_of_int.
  - reflexivity.
  - apply Hd.
  - cbn [all_chars]. apply Hd.
Qed.

Lemma brace_free_all_chars s :
  brace_free s
  = all_chars (fun c => negb (Ascii.eqb c "{") && negb (Ascii.eqb c "}")) s.
Proof. induction s as [|c s IH]; cbn; [reflexivity | now rewrite IH]. Qed.

Lemma fmt_d_brace_free n : brace_free (fmt_d n) = true.
Proof.
  rewrite brace_free_all_chars.
  eapply all_chars_weaken; [|apply fmt_d_chars].
  intros c Hc.
  destruct c as [[] [] [] [] [] [] [] []]; try discriminate Hc; reflexivity.
Qed.

Lemma fmt_d_no_space n :
  all_chars (fun c => negb (Ascii.eqb c " ")) (fmt_d n) = true.
Proof.
  eapply all_chars_weaken; [|apply fmt_d_chars].
  intros c Hc.
  destruct c as [[] [] [] [] [] [] [] []]; try discriminate Hc; reflexivity.
Qed.

Lemma brace_free_app s t :
  brace_free (s ++ t) = brace_free s && brace_free t.
Proof. rewrite !brace_free_all_chars. apply all_chars_app. Qed.

(** [_send_cmd] on a template with one placeholder. *)
Lemma _send_cmd_template fuel n before after pars :
  brace_free before = true -> brace_free after = true ->
  _send_cmd fuel (SmaractBaseAxis n) (template before after) pars
  = send_cmd fuel (before ++ fmt_d n ++ after).
Proof.
  intros Hb Ha. unfold _send_cmd. cbn [_axis_nr].
  now rewrite py_format_template.
Qed.

(** ** The safe-direction getter *)

(** What the getter makes of the last character of the reply. *)
Lemma direction_of_last_char c d :
  match py_int (String c EmptyString) with
  | Some n => py_getitem ["forward"; "backward"] n
  | None => Raise (ValueError_int (String c EmptyString))
  end = Return d
  <-> (c = "0"%char /\ d = "forward") \/ (c = "1"%char /\ d = "backward").
Proof.
  destruct c as [[] [] [] [] [] [] [] []]; vm_compute; split;
    solve
      [ intros H; first
          [ discriminate H
          | injection H as <-; first [left; split; reflexivity
                                     | right; split; reflexivity] ]
      | intros [[H1 H2]|[H1 H2]]; first
          [ discriminate H1 | subst d; reflexivity ] ].
Qed.

Lemma safe_direction_unfold fuel self (io : IO T) :
  safe_direction fuel self io =
  match send_cmd fuel "GSD" io with
  | None => None
  | Some (Raise e, io') => Some (Raise e, io')
  | Some (Return ans, io') =>
      match last_char ans with
      | None => Some (Raise (IndexError "string index out of range"), io')
      | Some c =>
          Some (match py_int (String c EmptyString) with
                | Some n => py_getitem ["forward"; "backward"] n
                | None => Raise (ValueError_int (String c EmptyString))
                end, io')
      end
  end.
Proof.
  unfold safe_direction. rewrite _send_cmd_literal by reflexivity.
  unfold bind at 1.
  destruct (send_cmd fuel "GSD" io) as [[[ans|e] io']|]; try reflexivity.
  unfold py_str_last, bind, int.
  destruct (last_char ans) as [c|]; [|reflexivity].
  cbn [lift_res]. unfold ret at 1.
  destruct (py_int (String c EmptyString)) as [n|]; [|reflexivity].
  unfold ret at 1. now destruct (py_getitem ["forward"; "backward"] n).
Qed.

(** The getter returns exactly when [send_cmd] returns a reply that
    ends with the character 0 or 1, and then it gives ['forward'] for 0
    and ['backward'] for 1.  On every other reply that [send_cmd]
    returns (an empty one, one that ends with another digit or with
    something that is no digit) the getter raises. *)
Theorem safe_direction_getter_returns fuel self (io : IO T) :
  (forall d io',
      safe_direction fuel self io = Some (Return d, io') <->
      exists ans,
        send_cmd fuel "GSD" io = Some (Return ans, io') /\
        ((last_char ans = Some "0"%char /\ d = "forward") \/
         (last_char ans = Some "1"%char /\ d = "backward")))
  /\
  (forall ans io',
      send_cmd fuel "GSD" io = Some (Return ans, io') ->
      last_char ans <> Some "0"%char ->
      last_char ans <> Some "1"%char ->
      exists e, safe_direction fuel self io = Some (Raise e, io')).
Proof.
  split.
  - intros d io'. rewrite safe_direction_unfold. split.
    + destruct (send_cmd fuel "GSD" io) as [[[ans|e] io1]|]; try discriminate.
      destruct (last_char ans) as [c|] eqn:El; [|discriminate].
      intros [= H <-]. exists ans. split; [reflexivity|].
      apply direction_of_last_char in H as [[-> ->]|[-> ->]]; auto.
    + intros (ans & -> & H).
      destruct H as [[-> ->]|[-> ->]]; reflexivity.
  - intros ans io' Hs H0 H1. rewrite safe_direction_unfold, Hs.
    destruct (last_char ans) as [c|]; [|eexists; reflexivity].
    destruct (match py_int (String c EmptyString) with
              | Some n => py_getitem ["forward"; "backward"] n
              | None => Raise (ValueError_int (String c EmptyString))
              end) as [d|e] eqn:E; [|eexists; reflexivity].
    apply direction_of_last_char in E as [[-> _]|[-> _]]; congruence.
Qed.

(** Whatever the getter returns, the setter accepts: it takes the path
    that sends the command, on any axis and in any state. *)
Theorem safe_direction_get_then_set fuel self (io : IO T) d io' fuel' self' :
  safe_direction fuel self io = Some (Return d, io') ->
  safe_direction_setter fuel' self' d = (send_cmd fuel' "SSD" ;;; ret tt).
Proof.
  rewrite safe_direction_unfold.
  destruct (send_cmd fuel "GSD" io) as [[[ans|e] io1]|]; try discriminate.
  destruct (last_char ans) as [c|]; [|discriminate].
  intros [= H _].
  apply direction_of_last_char in H as [[_ ->]|[_ ->]];
    apply safe_direction_setter_accepted; cbn; auto.
Qed.

(** ** Commands without a placeholder *)

(** A template without a placeholder is sent as it is, so the axis
    number is not part of what is sent.  [GSD], [SSD] and [GS] are such
    templates: the safe-direction getter and setter and the state query
    of two axes are the same computations. *)
Theorem axis_number_not_sent fuel (a1 a2 : Axis) :
  (forall str_cmd pars,
      brace_free str_cmd = true ->
      _send_cmd (T := T) fuel a1 str_cmd pars = send_cmd fuel str_cmd /\
      _send_cmd (T := T) fuel a1 str_cmd pars = _send_cmd fuel a2 str_cmd pars) /\
  safe_direction (T := T) fuel a1 = safe_direction fuel a2 /\
  state (T := T) fuel a1 = state fuel a2 /\
  (forall direction,
      safe_direction_setter (T := T) fuel a1 direction
      = safe_direction_setter fuel a2 direction).
Proof.
  split.
  - intros str_cmd pars H.
    now rewrite !(_send_cmd_literal _ _ _ _ H).
  - unfold safe_direction, state, safe_direction_setter.
    rewrite !(_send_cmd_literal fuel a1), !(_send_cmd_literal fuel a2)
      by reflexivity.
    repeat split.
Qed.

(** ** Commands with the placeholder *)

(** The command made from a template with one placeholder tells the
    axis: two axis numbers that give the same command are equal. *)
Theorem placeholder_command_identifies_axis before after n m :
  brace_free before = true ->
  brace_free after = true ->
  py_format (template before after) n = py_format (template before after) m ->
  n = m.
Proof.
  intros Hb Ha H. rewrite !py_format_template in H by assumption.
  injection H as H.
  apply (f_equal (strip_prefix before)) in H.
  rewrite !strip_prefix_app in H. injection H as H.
  apply (f_equal (strip_suffix after)) in H.
  rewrite !strip_suffix_app in H. injection H as H.
  now apply fmt_d_inj.
Qed.

(** [stop], [calibrate_sensor], [find_reference_mark] and
    [positioner_mode] hand to [send_cmd] the commands [:STOP<n>],
    [:CAL<n>], [:REF<n>] and [:CHAN<n>:MMOD <mode>] of their axis;
    [find_reference_mark] sends the same command whatever its three
    arguments are. *)
Theorem axis_action_commands fuel n :
  stop (T := T) fuel (SmaractBaseAxis n)
  = (send_cmd fuel (":STOP" ++ fmt_d n) ;;; ret tt) /\
  calibrate_sensor (T := T) fuel (SmaractBaseAxis n)
  = (send_cmd fuel (":CAL" ++ fmt_d n) ;;; ret tt) /\
  (forall direction hold_time auto_zero,
      find_reference_mark (T := T) fuel (SmaractBaseAxis n)
        direction hold_time auto_zero
      = (send_cmd fuel (":REF" ++ fmt_d n) ;;; ret tt)) /\
  (forall mode,
      positioner_mode (T := T) fuel (SmaractBaseAxis n) mode
      = (send_cmd fuel (":CHAN" ++ fmt_d n ++ ":MMOD " ++ fmt_d mode) ;;; ret tt)).
Proof.
  assert (H : forall before,
             brace_free before = true ->
             _send_cmd (T := T) fuel (SmaractBaseAxis n) (template before "") []
             = send_cmd fuel (before ++ fmt_d n)).
  { intros before Hb. rewrite _send_cmd_template by auto.
    now rewrite string_app_nil_r. }
  split; [|split; [|split]].
  - unfold stop. now rewrite <- (H ":STOP" eq_refl).
  - unfold calibrate_sensor. now rewrite <- (H ":CAL" eq_refl).
  - intros. unfold find_reference_mark. now rewrite <- (H ":REF" eq_refl).
  - intros mode. unfold positioner_mode.
    change (":CHAN{:d}:MMOD " ++ fmt_d mode)%string
      with (template ":CHAN" (":MMOD " ++ fmt_d mode)).
    rewrite _send_cmd_template; [reflexivity | reflexivity |].
    change (":MMOD " ++ fmt_d mode)%string
      with (String ":" (String "M" (String "M" (String "O" (String "D"
             (String " " (fmt_d mode))))))).
    cbn [brace_free]. cbn. apply fmt_d_brace_free.
Qed.

(** [move] hands to [send_cmd] the command [:MOVE<n> <position>], and
    this command tells both the axis and the position. *)
Theorem move_command_identifies fuel n position :
  move (T := T) fuel (SmaractBaseAxis n) position
  = (send_cmd fuel (":MOVE" ++ fmt_d n ++ " " ++ fmt_d position) ;;; ret tt)
  /\
  (forall n' position',
      (":MOVE" ++ fmt_d n ++ " " ++ fmt_d position)%string
      = (":MOVE" ++ fmt_d n' ++ " " ++ fmt_d position')%string ->
      n = n' /\ position = position').
Proof.
  split.
  - unfold move.
    change (":MOVE{:d} " ++ fmt_d position)%string
      with (template ":MOVE" (" " ++ fmt_d position)).
    rewrite _send_cmd_template; [reflexivity | reflexivity |].
    change (" " ++ fmt_d position)%string with (String " " (fmt_d position)).
    cbn [brace_free]. cbn. apply fmt_d_brace_free.
  - intros n' p' H.
    apply (f_equal (strip_prefix ":MOVE")) in H.
    rewrite !strip_prefix_app in H. injection H as H.
    apply (f_equal (py_rsplit " ")) in H.
    change (" " ++ fmt_d position)%string with (String " " (fmt_d position)) in H.
    change (" " ++ fmt_d p')%string with (String " " (fmt_d p')) in H.
    rewrite !py_rsplit_app_sep in H by apply fmt_d_no_space.
    rewrite !py_rsplit_no_sep in H by apply fmt_d_no_space.
    injection H as Hn Hp. split; now apply fmt_d_inj.
Qed.

(** ** [sensor_type], [state], [sensor_enabled] *)

Lemma py_replace_empty_app old s t :
  py_replace_empty old (s ++ t)
  = (py_replace_empty old s ++ py_replace_empty old t)%string.
Proof.
  induction s as [|c s IH]; cbn [py_replace_empty String.append]; [reflexivity|].
  destruct (Ascii.eqb c old); [exact IH|]. cbn. now rewrite IH.
Qed.

Lemma py_replace_empty_all old s :
  all_chars (fun c => Ascii.eqb c old) s = true ->
  py_replace_empty old s = EmptyString.
Proof.
  induction s as [|c s IH]; cbn [py_replace_empty all_chars]; [reflexivity|].
  intros H. apply andb_true_iff in H as [Hc Hs]. now rewrite Hc, IH.
Qed.

Lemma py_replace_empty_none old s :
  all_chars (fun c => negb (Ascii.eqb c old)) s = true ->
  py_replace_empty old s = s.
Proof.
  induction s as [|c s IH]; cbn [py_replace_empty all_chars]; [reflexivity|].
  intros H. apply andb_true_iff in H as [Hc Hs].
  apply negb_true_iff in Hc. now rewrite Hc, IH.
Qed.

Lemma lstrip_char_all c q s :
  all_chars (fun a => Ascii.eqb a c) q = true ->
  lstrip_char c (q ++ s) = lstrip_char c s.
Proof.
  induction q as [|a q IH]; cbn [all_chars String.append lstrip_char];
    [reflexivity|].
  intros H. apply andb_true_iff in H as [Ha Hq]. now rewrite Ha, IH.
Qed.

Lemma rstrip_char_all c q :
  all_chars (fun a => Ascii.eqb a c) q = true ->
  rstrip_char c q = EmptyString.
Proof.
  induction q as [|a q IH]; cbn [all_chars rstrip_char]; [reflexivity|].
  intros H. apply andb_true_iff in H as [Ha Hq]. now rewrite (IH Hq), Ha.
Qed.

Lemma rstrip_char_body c body q :
  all_chars (fun a => negb (Ascii.eqb a c)) body = true ->
  all_chars (fun a => Ascii.eqb a c) q = true ->
  rstrip_char c (body ++ q) = body.
Proof.
  intros Hb Hq. induction body as [|a body IH].
  - now apply rstrip_char_all.
  - cbn [all_chars] in Hb. apply andb_true_iff in Hb as [Ha Hb].
    apply negb_true_iff in Ha.
    cbn [String.append rstrip_char]. rewrite (IH Hb), Ha. now destruct body.
Qed.

(** Stripping the quotes around a text that has none inside. *)
Lemma py_strip_char_quoted c q1 body q2 :
  all_chars (fun a => Ascii.eqb a c) q1 = true ->
  all_chars (fun a => negb (Ascii.eqb a c)) body = true ->
  all_chars (fun a => Ascii.eqb a c) q2 = true ->
  py_strip_char c (q1 ++ body ++ q2) = body.
Proof.
  intros H1 Hb H2. unfold py_strip_char. rewrite (lstrip_char_all _ _ _ H1).
  destruct body as [|a body].
  - cbn [String.append]. rewrite <- (string_app_nil_r q2).
    rewrite (lstrip_char_all _ _ _ H2). reflexivity.
  - cbn [all_chars] in Hb. apply andb_true_iff in Hb as [Ha Hb'].
    cbn [String.append lstrip_char].
    rewrite (proj1 (negb_true_iff _) Ha).
    apply (rstrip_char_body c (String a body) q2); [|exact H2].
    cbn [all_chars]. now rewrite Ha, Hb'.
Qed.

(** The property [sensor_type] asks with the command the enumeration
    uses for the same channel; and on a reply that is a text without
    double quote and carriage return, between runs of double quotes,
    it returns the sensor code the enumeration takes from that reply. *)
Theorem sensor_type_agrees_with_enumeration fuel n (io : IO T) q1 body q2 io' :
  send_cmd fuel (chan_name_cmd n) io = Some (Return (q1 ++ body ++ q2)%string, io') ->
  all_chars (fun a => Ascii.eqb a dquote) q1 = true ->
  all_chars (fun a => Ascii.eqb a dquote) q2 = true ->
  all_chars (fun a => negb (Ascii.eqb a dquote)) body = true ->
  all_chars (fun a => negb (Ascii.eqb a cr)) body = true ->
  exists code,
    sensor_code_of (q1 ++ body ++ q2) = Return code /\
    sensor_type fuel (SmaractBaseAxis n) io = Some (Return code, io').
Proof.
  intros Hs H1 H2 Hq Hc.
  destruct (py_rsplit_head "." body) as (h & t & Hsplit & _ & _).
  exists h. split.
  - unfold sensor_code_of.
    assert (Hin : py_replace_empty dquote (q1 ++ body ++ q2)%string = body).
    { rewrite !py_replace_empty_app, (py_replace_empty_all _ _ H1),
        (py_replace_empty_all _ _ H2), (py_replace_empty_none _ _ Hq).
      cbn [String.append]. apply string_app_nil_r. }
    rewrite Hin, (py_replace_empty_none _ _ Hc), Hsplit. reflexivity.
  - unfold sensor_type.
    change ":CHAN{:d}:PTYPE:NAME?" with (template ":CHAN" ":PTYPE:NAME?").
    rewrite _send_cmd_template by reflexivity.
    unfold bind. change (":CHAN" ++ fmt_d n ++ ":PTYPE:NAME?")%string
      with (chan_name_cmd n). rewrite Hs.
    rewrite (py_strip_char_quoted _ _ _ _ H1 Hq H2), Hsplit. reflexivity.
Qed.

(** [state] reads the second comma-separated field of the reply as an
    integer: on a reply [<text>,<n>] it returns n, and on a reply
    without a comma it raises [IndexError]. *)
Theorem state_reads_second_field fuel self (io : IO T) ans io' :
  send_cmd fuel "GS" io = Some (Return ans, io') ->
  (forall a n, comma_free a = true -> ans = (a ++ "," ++ fmt_d n)%string ->
               state fuel self io = Some (Return n, io')) /\
  (comma_free ans = true ->
   state fuel self io
   = Some (Raise (IndexError "list index out of range"), io')).
Proof.
  intros Hs.
  assert (Hst : state fuel self io
                = (field <- lift_res (py_index (py_rsplit "," ans) 1) ;;
                   int field) io').
  { unfold state. rewrite _send_cmd_literal by reflexivity.
    unfold bind at 1. now rewrite Hs. }
  rewrite Hst. split.
  - intros a n Ha ->.
    change ("," ++ fmt_d n)%string with (String "," (fmt_d n)).
    rewrite (py_rsplit_app_sep "," a _ Ha).
    rewrite (py_rsplit_no_sep "," _ (fmt_d_comma_free n)).
    unfold bind, int. cbn [py_index nth_error lift_res]. unfold ret at 1.
    now rewrite py_int_fmt_d.
  - intros Hfree. rewrite (py_rsplit_no_sep "," _ Hfree). reflexivity.
Qed.

Lemma last_char_snoc s c : last_char (s ++ String c EmptyString) = Some c.
Proof.
  induction s as [|a s IH]; cbn [String.append last_char]; [reflexivity|].
  now rewrite IH.
Qed.

(** The getter of [sensor_enabled] returns the last character of the
    reply, as a string of one character; on an empty reply it raises
    [IndexError]. *)
Theorem sensor_enabled_last_char fuel (self : Ctrl T) ans io' :
  send_cmd fuel "GSE" (_comm self) = Some (Return ans, io') ->
  (ans = EmptyString ->
   sensor_enabled fuel self
   = Some (Raise (IndexError "string index out of range"),
           mkCtrl io' (items self))) /\
  (forall body c, ans = (body ++ String c EmptyString)%string ->
   sensor_enabled fuel self
   = Some (Return (String c EmptyString), mkCtrl io' (items self))).
Proof.
  intros Hs.
  assert (Hse : sensor_enabled fuel self
                = lift_res (py_str_last ans) (mkCtrl io' (items self))).
  { unfold sensor_enabled, bind, on_comm. now rewrite Hs. }
  rewrite Hse. unfold py_str_last. split.
  - intros ->. reflexivity.
  - intros body c ->. now rewrite last_char_snoc.
Qed.

End MethodFacts.

(* ===================================================================== *)
(** * Runs against a scripted transport *)
(* ===================================================================== *)

(** C1 as it is stated fails: the message of the first record with a
    nonzero code has a comma, and the error raised carries only its
    text before the comma. *)
Lemma send_cmd_first_nonzero_message_counterexample :
  exists msg io',
    send_cmd 2 "GSD"
      (fresh_io ["GSD0"; "2"; record_line 0 "No Error";
                 "1"; record_line 7 "Invalid Parameter, channel 2"])
    = Some (Raise (RuntimeError msg), io') /\
    msg = "Error 7: Invalid Parameter" /\
    msg <> "Error 7: Invalid Parameter, channel 2" /\
    contains "Invalid Parameter, channel 2" msg = false.
Proof.
  eexists. eexists. split; [reflexivity|].
  split; [reflexivity|]. split; [discriminate | reflexivity].
Qed.

Lemma send_cmd_raises_first_nonzero_witness :
  send_cmd 5 "GSD" (fresh_io script_147)
  = Some (Raise (RuntimeError "Error 147: Range Limit Reached Error"),
          mkIO ["1"; "5,Too Few Parameters Error"]
               ["GSD"; COUN; NEXT; COUN; NEXT]
               ["0,No Error"; "147,Range Limit Reached Error"]).
Proof.
  refine (proj2 (send_cmd_raises_first_nonzero 5 "GSD" (fresh_io script_147)
                   "GSD0" (tl script_147) [(0%Z, "No Error")] 147%Z
                   "Range Limit Reached Error"
                   ["1"; "5,Too Few Parameters Error"] _ _ _ _ _) _).
  - reflexivity.
  - eapply (polls_cons _ "3" _ 3%Z); [reflexivity | reflexivity | lia | reflexivity |].
    eapply (polls_cons _ "2" _ 2%Z); [reflexivity | reflexivity | lia | reflexivity |].
    apply polls_nil.
  - constructor; [reflexivity | constructor].
  - lia.
  - simpl. lia.
  - reflexivity.
Defined.

Lemma send_cmd_returns_iff_count_zero_witness :
  exists fuel,
    send_cmd fuel "GSD"
      (fresh_io ["GSD0"; "2"; "0,No Error"; "1"; "0,No Error"; "0"])
    = Some (Return "GSD0",
            mkIO [] ["GSD"; COUN; NEXT; COUN; NEXT; COUN]
                 ["0,No Error"; "0,No Error"]).
Proof.
  apply (proj2 (send_cmd_returns_iff_count_zero "GSD"
                  (fresh_io ["GSD0"; "2"; "0,No Error"; "1"; "0,No Error"; "0"])
                  "GSD0" _)).
  exists ["2"; "0,No Error"; "1"; "0,No Error"; "0"],
         ["0,No Error"; "0,No Error"], ["0"], "0", [].
  split; [reflexivity|]. split.
  - eapply (polls_cons _ "2" _ 2%Z); [reflexivity | reflexivity | lia | reflexivity |].
    eapply (polls_cons _ "1" _ 1%Z); [reflexivity | reflexivity | lia | reflexivity |].
    apply polls_nil.
  - split; [|repeat split].
    constructor; [|constructor; [|constructor]]; exists "No Error"; reflexivity.
Defined.

Lemma send_cmd_no_error_returns_reply_witness :
  send_cmd 1 "GSD" (fresh_io ["GSD0"; "0"])
  = Some (Return "GSD0", mkIO [] ["GSD"; COUN] []).
Proof.
  apply (send_cmd_no_error_returns_reply 0 "GSD" (fresh_io ["GSD0"; "0"])
           "GSD0" ["0"] "0" []); reflexivity.
Defined.

(** C9 as it is stated fails: one informational record read, four round
    trips. *)
Lemma send_cmd_round_trips_counterexample :
  exists out io',
    send_cmd 2 "GSD" (fresh_io ["GSD0"; "1"; "0,No Error"; "0"])
    = Some (out, io') /\
    records_read (new_sent (fresh_io ["GSD0"; "1"; "0,No Error"; "0"]) io') = 1 /\
    round_trips (new_sent (fresh_io ["GSD0"; "1"; "0,No Error"; "0"]) io') = 4 /\
    ~ (round_trips (new_sent (fresh_io ["GSD0"; "1"; "0,No Error"; "0"]) io')
       <= records_read (new_sent (fresh_io ["GSD0"; "1"; "0,No Error"; "0"]) io') + 2).
Proof.
  eexists. eexists. split; [reflexivity|].
  split; [reflexivity|]. split; [reflexivity|].
  vm_compute. lia.
Qed.

Lemma send_cmd_round_trips_witness :
  sent (mkIO ([] : list string) ["GSD"; COUN; NEXT; COUN] ["0,No Error"])
  = [] ++ ["GSD"; COUN; NEXT; COUN] /\
  2 <= 4 <= 2 * 1 + 2 /\
  (forall ans : string, Return "GSD0" = Return ans -> 4 = 2 * 1 + 2) /\
  (forall msg, Return "GSD0" = Raise (RuntimeError msg) -> 4 = 2 * 1 + 1).
Proof.
  apply (send_cmd_round_trips 2 "GSD"
           (fresh_io ["GSD0"; "1"; "0,No Error"; "0"]) (Return "GSD0")
           (mkIO [] ["GSD"; COUN; NEXT; COUN] ["0,No Error"])).
  reflexivity.
Defined.

(** C6 as it is stated fails: a message with a comma is cut at the
    comma. *)
Lemma error_message_comma_counterexample :
  exists msg io',
    send_cmd 1 "GSD" (fresh_io ["GSD0"; "1"; record_line 147 "Range, Limit"])
    = Some (Raise (RuntimeError msg), io') /\
    msg = "Error 147: Range" /\
    contains "Range, Limit" msg = false.
Proof.
  eexists. eexists. split; [reflexivity|]. split; reflexivity.
Qed.

Lemma error_message_code_and_text_witness :
  exists resp code text,
    last ["147,Range Limit Reached Error"] EmptyString = resp /\
    record_fields resp = Some (code, text) /\ code <> 0%Z /\
    "Error 147: Range Limit Reached Error" = error_text code text /\
    contains (fmt_d code) "Error 147: Range Limit Reached Error" = true /\
    contains text "Error 147: Range Limit Reached Error" = true /\
    (forall code' message,
        resp = record_line code' message ->
        code = code' /\ text = before_comma message /\
        (comma_free message = true ->
         contains message "Error 147: Range Limit Reached Error" = true)).
Proof.
  apply (error_message_code_and_text 1 "GSD"
           (fresh_io ["GSD0"; "1"; "147,Range Limit Reached Error"])
           "Error 147: Range Limit Reached Error"
           (mkIO [] ["GSD"; COUN; NEXT] ["147,Range Limit Reached Error"])).
  reflexivity.
Defined.



Lemma create_axes_all_known_witness :
  exists fuel0, forall fuel, fuel0 <= fuel ->
    exists self',
      _create_axes fuel
        (mkCtrl (fresh_io ["2"; "0"; "SL"; "0"; "SR.7"; "0"]) [SmaractBaseAxis 5])
      = Some (Return tt, self') /\
      _comm self'
      = mkIO [] [":DEV:NOCH?"; COUN; chan_name_cmd 0; COUN; chan_name_cmd 1; COUN] [] /\
      map _axis_nr (items self') = py_range 2 /\
      length (items self') = Z.to_nat 2.
Proof.
  apply (create_axes_all_known
           (mkCtrl (fresh_io ["2"; "0"; "SL"; "0"; "SR.7"; "0"]) [SmaractBaseAxis 5])
           "2" 2%Z (mkIO ["SL"; "0"; "SR.7"; "0"] [":DEV:NOCH?"; COUN] [])
           ["SL"; "SR.7"]).
  - exists 1. reflexivity.
  - reflexivity.
  - apply channel_answers_cons with (io1 := mkIO ["SR.7"; "0"]
        [":DEV:NOCH?"; COUN; chan_name_cmd 0; COUN] []).
    + exists 1. reflexivity.
    + apply channel_answers_cons with (io1 := mkIO []
        [":DEV:NOCH?"; COUN; chan_name_cmd 0; COUN; chan_name_cmd 1; COUN] []).
      * exists 1. reflexivity.
      * apply channel_answers_nil.
  - reflexivity.
  - constructor; [|constructor; [|constructor]].
    + exists "SL". split; reflexivity.
    + exists "SR". split; reflexivity.
Defined.

Lemma safe_direction_setter_validates_witness :
  safe_direction_setter 1 (SmaractBaseAxis 3) "sideways" (fresh_io ["SSD"; "0"])
  = Some (Raise (ValueError "Read the help"), fresh_io ["SSD"; "0"])
  /\
  safe_direction_setter 1 (SmaractBaseAxis 3) "ForWard" (fresh_io ["SSD"; "0"])
  = Some (Return tt, mkIO [] ["SSD"; COUN] []).
Proof.
  split.
  - apply (proj1 (safe_direction_setter_validates 1 (SmaractBaseAxis 3)
                    "sideways" (fresh_io ["SSD"; "0"]))); reflexivity.
  - exact (proj1 (proj2 (safe_direction_setter_validates 1 (SmaractBaseAxis 3)
                           "ForWard" (fresh_io ["SSD"; "0"]))
                    (or_introl eq_refl))).
Defined.

Lemma safe_direction_value_not_sent_witness :
  safe_direction_setter 1 (SmaractBaseAxis 3) "Backward" (fresh_io ["SSD"; "0"])
  = (send_cmd 1 "SSD" ;;; ret tt) (fresh_io ["SSD"; "0"])
  /\
  safe_direction_setter 1 (SmaractBaseAxis 3) "Backward" (fresh_io ["SSD"; "0"])
  = safe_direction_setter 1 (SmaractBaseAxis 3) "forward" (fresh_io ["SSD"; "0"])
  /\
  exists rest,
    new_sent (fresh_io ["SSD"; "0"]) (mkIO [] ["SSD"; COUN] [])
    = "SSD" :: rest /\ Forall drain_query rest.
Proof.
  destruct (proj2 (safe_direction_value_not_sent 1 (SmaractBaseAxis 3)
                     "Backward" (fresh_io ["SSD"; "0"]))
              (or_intror eq_refl)) as (Hs & _ & Hf & _ & Hlog).
  split; [exact Hs|]. split; [exact Hf|].
  apply (Hlog (Return tt)). reflexivity.
Defined.

Lemma axis_nr_round_trip_witness :
  exists cmd,
    py_format (template ":CHAN" ":POS?") 63 = Some (Return cmd) /\
    (forall pars (io : IO (list string)),
        _send_cmd 1 (SmaractBaseAxis 63) (template ":CHAN" ":POS?") pars io
        = send_cmd 1 cmd io) /\
    cmd = ":CHAN63:POS?" /\
    all_chars is_digit (fmt_d 63) = true /\
    parse_axis_nr ":CHAN" ":POS?" cmd = Some 63%Z.
Proof.
  apply (axis_nr_round_trip 1 ":CHAN" ":POS?" 63%Z); [reflexivity | reflexivity | lia].
Defined.

(* ===================================================================== *)
(** * Further runs against the scripted and the stuck transport *)
(* ===================================================================== *)

Lemma send_cmd_count_not_integer_witness :
  send_cmd 2 "GSD" (fresh_io ["GSD0"; "1"; "0,No Error"; "busy"; "0"])
  = Some (Raise (ValueError_int "busy"),
          mkIO ["0"] ["GSD"; COUN; NEXT; COUN] ["0,No Error"]).
Proof.
  apply (send_cmd_count_not_integer 2 "GSD"
           (fresh_io ["GSD0"; "1"; "0,No Error"; "busy"; "0"]) "GSD0"
           ["1"; "0,No Error"; "busy"; "0"] ["0,No Error"] ["busy"; "0"]
           "busy" ["0"]).
  - reflexivity.
  - eapply (polls_cons _ "1" _ 1%Z); [reflexivity | reflexivity | lia | reflexivity |].
    apply polls_nil.
  - constructor; [|constructor]. exists "No Error". reflexivity.
  - reflexivity.
  - reflexivity.
  - simpl. lia.
Defined.

Lemma send_cmd_record_without_comma_witness :
  send_cmd 1 "GSD" (fresh_io ["GSD0"; "1"; "0"; "0"])
  = Some (Raise (IndexError "list index out of range"),
          mkIO ["0"] ["GSD"; COUN; NEXT] ["0"]).
Proof.
  apply (send_cmd_record_without_comma 1 "GSD"
           (fresh_io ["GSD0"; "1"; "0"; "0"]) "GSD0" ["1"; "0"; "0"] []
           "0" ["0"] 0%Z).
  - reflexivity.
  - eapply (polls_cons _ "1" _ 1%Z); [reflexivity | reflexivity | lia | reflexivity |].
    apply polls_nil.
  - constructor.
  - reflexivity.
  - reflexivity.
  - simpl. lia.
Defined.

Lemma send_cmd_never_ends_witness :
  send_cmd 1000 "GSD" (mkIO tt [] []) = None.
Proof.
  apply (send_cmd_never_ends (fun _ : unit => True) 1000 "GSD"
           (mkIO tt [] []) "0,No Error" tt).
  - intros d _. exists "1", tt, 1%Z, "0,No Error", tt.
    split; [reflexivity|]. split; [reflexivity|]. split; [lia|].
    split; [reflexivity|]. split; [|exact I].
    exists "No Error". reflexivity.
  - reflexivity.
  - exact I.
Defined.

Lemma send_cmd_prints_records_read_witness :
  stdout (mkIO (["1"; "5,Too Few Parameters Error"] : list string)
            ["GSD"; COUN; NEXT; COUN; NEXT]
            ["0,No Error"; "147,Range Limit Reached Error"])
  = stdout (fresh_io script_147)
    ++ ["0,No Error"; "147,Range Limit Reached Error"]
  /\
  length ["0,No Error"; "147,Range Limit Reached Error"] = 2.
Proof.
  refine (send_cmd_prints_records_read 5 "GSD" (fresh_io script_147)
            (Raise (RuntimeError "Error 147: Range Limit Reached Error"))
            (mkIO ["1"; "5,Too Few Parameters Error"]
               ["GSD"; COUN; NEXT; COUN; NEXT]
               ["0,No Error"; "147,Range Limit Reached Error"]) _).
  reflexivity.
Defined.

Lemma create_axes_holds_a_prefix_witness :
  exists k : nat,
    [SmaractBaseAxis 0] = map SmaractBaseAxis (py_range (Z.of_nat k)) /\
    map _axis_nr [SmaractBaseAxis 0] = py_range (Z.of_nat k).
Proof.
  apply (create_axes_holds_a_prefix 1
           (mkCtrl (fresh_io ["3"; "0"; "SL"; "0"; ""; "1"; "7,Invalid Parameter Error"])
              [SmaractBaseAxis 4; SmaractBaseAxis 9])
           (Raise (RuntimeError "Error 7: Invalid Parameter Error"))
           (mkCtrl (mkIO []
                      [":DEV:NOCH?"; COUN; chan_name_cmd 0; COUN;
                       chan_name_cmd 1; COUN; NEXT]
                      ["7,Invalid Parameter Error"])
              [SmaractBaseAxis 0])).
  reflexivity.
Defined.

Lemma create_axes_count_query_fails_witness :
  _create_axes 1
    (mkCtrl (fresh_io ["2"; "1"; "157,Permission Denied Error"])
       [SmaractBaseAxis 0; SmaractBaseAxis 1])
  = Some (Raise (RuntimeError "Error 157: Permission Denied Error"),
          mkCtrl (mkIO [] [":DEV:NOCH?"; COUN; NEXT]
                    ["157,Permission Denied Error"]) []).
Proof.
  apply (create_axes_count_query_fails 1
           (mkCtrl (fresh_io ["2"; "1"; "157,Permission Denied Error"])
              [SmaractBaseAxis 0; SmaractBaseAxis 1])
           (Raise (RuntimeError "Error 157: Permission Denied Error"))).
  - reflexivity.
  - left. reflexivity.
Defined.

Lemma create_axes_no_channels_witness :
  _create_axes 1
    (mkCtrl (fresh_io ["-2"; "0"; "SL"; "0"]) [SmaractBaseAxis 0])
  = Some (Return tt, mkCtrl (mkIO ["SL"; "0"] [":DEV:NOCH?"; COUN] []) []).
Proof.
  apply (create_axes_no_channels 1
           (mkCtrl (fresh_io ["-2"; "0"; "SL"; "0"]) [SmaractBaseAxis 0])
           "-2" (-2)%Z).
  - reflexivity.
  - reflexivity.
  - lia.
Defined.

Lemma create_axes_channel_query_raises_witness :
  exists fuel0, forall fuel, fuel0 <= fuel ->
    _create_axes fuel
      (mkCtrl (fresh_io ["3"; "0"; "SL"; "0"; ""; "1"; "7,Invalid Parameter Error"])
         [SmaractBaseAxis 4])
    = Some (Raise (RuntimeError "Error 7: Invalid Parameter Error"),
            mkCtrl (mkIO []
                      [":DEV:NOCH?"; COUN; chan_name_cmd 0; COUN;
                       chan_name_cmd 1; COUN; NEXT]
                      ["7,Invalid Parameter Error"])
              (map SmaractBaseAxis (py_range 1))).
Proof.
  apply (create_axes_channel_query_raises
           (mkCtrl (fresh_io ["3"; "0"; "SL"; "0"; ""; "1"; "7,Invalid Parameter Error"])
              [SmaractBaseAxis 4])
           "3" 3%Z
           (mkIO ["SL"; "0"; ""; "1"; "7,Invalid Parameter Error"]
              [":DEV:NOCH?"; COUN] [])
           ["SL"]
           (mkIO [""; "1"; "7,Invalid Parameter Error"]
              [":DEV:NOCH?"; COUN; chan_name_cmd 0; COUN] [])).
  - exists 1. reflexivity.
  - reflexivity.
  - apply channel_answers_cons with (io1 := mkIO [""; "1"; "7,Invalid Parameter Error"]
        [":DEV:NOCH?"; COUN; chan_name_cmd 0; COUN] []).
    + exists 1. reflexivity.
    + apply channel_answers_nil.
  - constructor; [|constructor]. exists "SL". split; reflexivity.
  - exists 1. reflexivity.
  - simpl. lia.
Defined.

Lemma safe_direction_getter_returns_witness :
  safe_direction 1 (SmaractBaseAxis 2) (fresh_io ["GSD1"; "0"])
  = Some (Return "backward", mkIO [] ["GSD"; COUN] [])
  /\
  exists e,
    safe_direction 1 (SmaractBaseAxis 2) (fresh_io ["GSD7"; "0"])
    = Some (Raise e, mkIO [] ["GSD"; COUN] []).
Proof.
  split.
  - apply (proj1 (safe_direction_getter_returns 1 (SmaractBaseAxis 2)
                    (fresh_io ["GSD1"; "0"]))).
    exists "GSD1". split; [reflexivity|]. right. split; reflexivity.
  - apply (proj2 (safe_direction_getter_returns 1 (SmaractBaseAxis 2)
                    (fresh_io ["GSD7"; "0"])) "GSD7").
    + reflexivity.
    + simpl. discriminate.
    + simpl. discriminate.
Defined.

Lemma safe_direction_get_then_set_witness :
  safe_direction_setter 3 (SmaractBaseAxis 5) "backward"
  = (send_cmd (T := list string) 3 "SSD" ;;; ret tt).
Proof.
  apply (safe_direction_get_then_set 1 (SmaractBaseAxis 2)
           (fresh_io ["GSD1"; "0"]) "backward" (mkIO [] ["GSD"; COUN] [])).
  reflexivity.
Defined.

Lemma axis_number_not_sent_witness :
  _send_cmd 1 (SmaractBaseAxis 0) "GS" [] (fresh_io ["0,4"; "0"])
  = _send_cmd 1 (SmaractBaseAxis 63) "GS" [] (fresh_io ["0,4"; "0"]).
Proof.
  refine (f_equal (fun c => c (fresh_io ["0,4"; "0"]))
            (proj2 (proj1 (axis_number_not_sent 1 (SmaractBaseAxis 0)
                             (SmaractBaseAxis 63)) "GS" [] _))).
  reflexivity.
Defined.

Lemma placeholder_command_identifies_axis_witness : 7%Z = 7%Z.
Proof.
  apply (placeholder_command_identifies_axis ":STOP" "" 7 7);
    reflexivity.
Defined.

Lemma move_command_identifies_witness : 3%Z = 3%Z /\ (-1500)%Z = (-1500)%Z.
Proof.
  apply (proj2 (move_command_identifies (T := list string) 1 3 (-1500)) 3%Z (-1500)%Z).
  reflexivity.
Defined.

Lemma sensor_type_agrees_with_enumeration_witness :
  exists code,
    sensor_code_of (String dquote "" ++ "SL.1" ++ String dquote "") = Return code /\
    sensor_type 1 (SmaractBaseAxis 3)
      (fresh_io [(String dquote "" ++ "SL.1" ++ String dquote "")%string; "0"])
    = Some (Return code, mkIO [] [chan_name_cmd 3; COUN] []).
Proof.
  apply (sensor_type_agrees_with_enumeration 1 3
           (fresh_io [(String dquote "" ++ "SL.1" ++ String dquote "")%string; "0"])
           (String dquote "") "SL.1" (String dquote "")); reflexivity.
Defined.

Lemma state_reads_second_field_witness :
  state 1 (SmaractBaseAxis 3) (fresh_io ["0,4"; "0"])
  = Some (Return 4%Z, mkIO [] ["GS"; COUN] []).
Proof.
  refine (proj1 (state_reads_second_field 1 (SmaractBaseAxis 3)
                   (fresh_io ["0,4"; "0"]) "0,4" (mkIO [] ["GS"; COUN] [])
                   _) "0" 4%Z _ _); reflexivity.
Defined.

Lemma sensor_enabled_last_char_witness :
  sensor_enabled 1 (mkCtrl (fresh_io ["GSE2"; "0"]) [SmaractBaseAxis 0])
  = Some (Return "2", mkCtrl (mkIO [] ["GSE"; COUN] []) [SmaractBaseAxis 0]).
Proof.
  refine (proj2 (sensor_enabled_last_char 1
                   (mkCtrl (fresh_io ["GSE2"; "0"]) [SmaractBaseAxis 0])
                   "GSE2" (mkIO [] ["GSE"; COUN] []) _) "GSE" "2"%char _);
    reflexivity.
Defined.
